(** * User directory and post list: repositories and HTTP routers

    A shallow embedding of the backend of the user/post application:
    the two repositories ([db/users/users.ts], [db/posts/posts.ts]) and the
    two Express routers ([routes/users.ts], [routes/posts.ts]), over an
    explicit model of the SQLite connection they share.

    Layout: the language-level helpers the code relies on ([JS]), the row
    types, the storage connection, the repositories, the routers, sample
    data, and then the properties. *)

From Stdlib Require Import List ZArith NArith Bool String Ascii Lia.
From Stdlib Require Import Sorted.
Import ListNotations.

Local Open Scope Z_scope.

(* ================================================================== *)
(** ** JavaScript values as the handlers see them *)

Module JS.

(** A string is a sequence of UTF-16 code units. *)
Definition jsstring : Type := list N.

(** Literal text (code units below 256) as a [jsstring]. *)
Definition js (s : string) : jsstring :=
  List.map N_of_ascii (list_ascii_of_string s).

Fixpoint eqb (s t : jsstring) : bool :=
  match s, t with
  | [], [] => true
  | a :: s', b :: t' => N.eqb a b && eqb s' t'
  | _, _ => false
  end.

(** The code units [String.prototype.trim] strips: ECMAScript WhiteSpace
    (TAB, VT, FF, SP, NBSP, ZWNBSP and the Unicode space separators)
    and LineTerminator (LF, CR, LS, PS). *)
Definition is_white_space (c : N) : bool :=
  ((9 <=? c) && (c <=? 13) || (c =? 32) || (c =? 160) || (c =? 5760)
   || (8192 <=? c) && (c <=? 8202) || (c =? 8232) || (c =? 8233)
   || (c =? 8239) || (c =? 8287) || (c =? 12288) || (c =? 65279))%N.

Fixpoint trimStart (s : jsstring) : jsstring :=
  match s with
  | [] => []
  | c :: s' => if is_white_space c then trimStart s' else s
  end.

Definition trimEnd (s : jsstring) : jsstring := rev (trimStart (rev s)).

Definition trim (s : jsstring) : jsstring := trimEnd (trimStart s).

(** [s.length === 0] *)
Definition is_empty (s : jsstring) : bool :=
  match s with [] => true | _ :: _ => false end.

(** A number: [NaN] or an integer value.  Fractional and infinite
    numbers are outside this model. *)
Inductive number : Type :=
| NaN
| Num (z : Z).

(** The values a parsed JSON body field can hold, and [undefined] for a
    field that is not there. *)
Inductive value : Type :=
| VUndefined
| VNull
| VBoolean (b : bool)
| VNumber (n : number)
| VString (s : jsstring)
| VObject.                     (* any object or array *)

(** ToBoolean: what [!v] negates. *)
Definition truthy (v : value) : bool :=
  match v with
  | VUndefined | VNull => false
  | VBoolean b => b
  | VNumber NaN => false
  | VNumber (Num z) => negb (z =? 0)
  | VString s => negb (is_empty s)
  | VObject => true
  end.

(** [typeof v === 'string'] *)
Definition typeof_string (v : value) : bool :=
  match v with VString _ => true | _ => false end.

(** A query-string parameter as the numeric conversion sees it. *)
Inductive param : Type :=
| Absent                       (* [req.query.x] is [undefined] *)
| NotNumeric (text : jsstring) (* text that does not denote a number *)
| Numeric (z : Z).             (* text denoting the integer [z] *)

(** [Number(req.query.x)]: [undefined] and non-numeric text give [NaN]. *)
Definition to_number (p : param) : number :=
  match p with
  | Absent => NaN
  | NotNumeric _ => NaN
  | Numeric z => Num z
  end.

(** [n || d] for a number [n] and a default [d]: [NaN] and [0] are the
    falsy numbers, so the default is taken for both. *)
Definition or_default (n : number) (d : Z) : Z :=
  match n with
  | NaN => d
  | Num z => if z =? 0 then d else z
  end.

(** An [Error] object, identified by its message. *)
Inductive Error : Type := Err (message : string).

(** ** Promises built with [new Promise((resolve, reject) => ...)]

    [state] is the settlement (the first [resolve] or [reject] wins, later
    ones are ignored); [uncaught] records an exception thrown by the
    callback itself, which the promise does not capture. *)
Inductive settled (A : Type) : Type :=
| Resolved (a : A)
| Rejected (e : Error).
Arguments Resolved {A} a.
Arguments Rejected {A} e.

Record promise (A : Type) : Type := mkPromise {
  state : option (settled A);
  uncaught : option Error
}.
Arguments mkPromise {A} state uncaught.
Arguments state {A} p.
Arguments uncaught {A} p.

Definition pending {A : Type} : promise A := mkPromise None None.

Definition resolve {A : Type} (a : A) (p : promise A) : promise A :=
  match state p with
  | None => mkPromise (Some (Resolved a)) (uncaught p)
  | Some _ => p
  end.

Definition reject {A : Type} (e : Error) (p : promise A) : promise A :=
  match state p with
  | None => mkPromise (Some (Rejected e)) (uncaught p)
  | Some _ => p
  end.

(** The callback throws: the exception escapes, the settlement stays. *)
Definition throw {A : Type} (e : Error) (p : promise A) : promise A :=
  mkPromise (state p) (Some e).

(** Reading a property of [undefined]. *)
Definition TypeError_undefined : Error :=
  Err "TypeError: Cannot read properties of undefined".

(** Calling [.trim()] on a value that has no such method. *)
Definition TypeError_not_a_function : Error :=
  Err "TypeError: trim is not a function".

(** An expression that evaluates normally or throws. *)
Inductive completion (A : Type) : Type :=
| Normal (a : A)
| Throw (e : Error).
Arguments Normal {A} a.
Arguments Throw {A} e.

(** [v.trim()] for a body or path value: a string is trimmed, anything
    else has no [trim] method and the call throws. *)
Definition trim_value (v : value) : completion jsstring :=
  match v with
  | VString s => Normal (trim s)
  | VUndefined | VNull => Throw TypeError_undefined
  | VBoolean _ | VNumber _ | VObject => Throw TypeError_not_a_function
  end.

(** [await p] inside an [async] function: continue with the value, take the
    rejection as a thrown exception, or never resume. *)
Definition await {A R : Type} (p : promise A)
  (never : R) (thrown : Error -> R) (k : A -> R) : R :=
  match state p with
  | Some (Resolved a) => k a
  | Some (Rejected e) => thrown e
  | None => never
  end.

End JS.

(* ================================================================== *)
(** ** Row types *)

(** [db/users/types.ts]; the address columns are nullable in storage
    ([string | null] in the repository's own typedef). *)
Module UserTypes.

Record User : Type := mkUser {
  id : JS.jsstring;
  name : JS.jsstring;
  username : JS.jsstring;
  email : JS.jsstring;
  phone : JS.jsstring;
  street : option JS.jsstring;
  city : option JS.jsstring;
  state : option JS.jsstring;
  zipcode : option JS.jsstring
}.

End UserTypes.

(** [db/posts/types.ts] *)
Module PostTypes.

Record Post : Type := mkPost {
  id : JS.jsstring;
  user_id : JS.jsstring;
  title : JS.jsstring;
  body : JS.jsstring;
  created_at : JS.jsstring
}.

End PostTypes.

(* ================================================================== *)
(** ** The storage connection ([db/connection.ts]) *)

Module Sqlite.

Import UserTypes PostTypes.

(** The two tables, rows in storage order. *)
Record Tables : Type := mkTables {
  users : list User;
  posts : list Post
}.

(** The statements the repositories issue. *)
Inductive Statement : Type :=
| SelectCountOfUsers
| SelectUsers
| SelectUserCountById
| SelectPosts
| InsertPost
| DeletePost.

(** The connection object: the tables behind it, and the storage-level
    fault (if any) with which each kind of statement currently fails. *)
Record Database : Type := mkDatabase {
  tables : Tables;
  fault : Statement -> option JS.Error
}.

(** What the driver hands to a callback: [cb(error)] or [cb(null, results)]. *)
Inductive outcome (R : Type) : Type :=
| Failed (error : JS.Error)
| Done (results : R).
Arguments Failed {R} error.
Arguments Done {R} results.

Definition with_posts (c : Database) (ps : list Post) : Database :=
  mkDatabase (mkTables (users (tables c)) ps) (fault c).

(** Modelled from the spec: [selectCountOfUsersTemplate] (query-templates.ts)
    is not among the sources; it yields the total number of user rows. *)
Definition get_count_of_users (c : Database) : outcome Z :=
  match fault c SelectCountOfUsers with
  | Some e => Failed e
  | None => Done (Z.of_nat (List.length (users (tables c))))
  end.

(** Rows [offset .. offset + limit) of a result set; as in SQLite, a
    negative offset counts as 0 and a negative limit as no limit. *)
Definition limit_offset {A : Type} (offset limit : Z) (rows : list A) : list A :=
  let rest := skipn (Z.to_nat offset) rows in
  if limit <? 0 then rest else firstn (Z.to_nat limit) rest.

(** Modelled from the spec: [selectUsersTemplate] (query-templates.ts) is
    not among the sources; bound to [offset, limit] it yields up to [limit] user
    rows starting at [offset] of the storage order. *)
Definition all_users (c : Database) (offset limit : Z) : outcome (list User) :=
  match fault c SelectUsers with
  | Some e => Failed e
  | None => Done (limit_offset offset limit (users (tables c)))
  end.

(** The inline statement of [userExists]: the number of user rows whose [id]
    is the parameter, as the [count] column of one row. *)
Definition get_user_count_by_id (c : Database) (userId : JS.jsstring)
  : outcome (option Z) :=
  match fault c SelectUserCountById with
  | Some e => Failed e
  | None =>
      Done (Some (Z.of_nat (List.length
        (filter (fun u => JS.eqb (UserTypes.id u) userId) (users (tables c))))))
  end.

(** Modelled from the spec: [selectPostsTemplate] (query-tamplates.ts) is not
    among the sources; it yields the posts whose [user_id] is the parameter,
    in storage order. *)
Definition all_posts (c : Database) (userId : JS.jsstring) : outcome (list Post) :=
  match fault c SelectPosts with
  | Some e => Failed e
  | None => Done (filter (fun p => JS.eqb (user_id p) userId) (posts (tables c)))
  end.

(** Modelled from the spec: [insertPostTemplate] (query-tamplates.ts) is not
    among the sources; it persists one row [(id, user_id, title, body,
    created_at)].  [posts.id] is the primary key, so a row whose id is already
    stored is refused.  The result is [this.changes]. *)
Definition run_insert_post (c : Database) (row : Post) : outcome Z * Database :=
  match fault c InsertPost with
  | Some e => (Failed e, c)
  | None =>
      if existsb (fun p => JS.eqb (PostTypes.id p) (PostTypes.id row))
                 (posts (tables c))
      then (Failed (JS.Err "SQLITE_CONSTRAINT: UNIQUE constraint failed: posts.id"), c)
      else (Done 1, with_posts c (posts (tables c) ++ [row]))
  end.

(** Modelled from the spec: [deletePostTemplate] (query-tamplates.ts) is not
    among the sources; it deletes the rows whose [id] is the parameter.  The
    result is [this.changes], the number of rows deleted. *)
Definition run_delete_post (c : Database) (postId : JS.jsstring)
  : outcome Z * Database :=
  match fault c DeletePost with
  | Some e => (Failed e, c)
  | None =>
      let kept :=
        filter (fun p => negb (JS.eqb (PostTypes.id p) postId)) (posts (tables c)) in
      (Done (Z.of_nat (List.length (posts (tables c)) - List.length kept)),
       with_posts c kept)
  end.

End Sqlite.

(* ================================================================== *)
(** ** User repository ([db/users/users.ts])

    The documented definitions are embedded: [formatAddress],
    [getUsersCount], [userExists] and [getUsers] with its formatting step. *)

Module Users.

Import UserTypes.

(** [field ? field.trim() : ''] *)
Definition trimmed_or_empty (field : option JS.jsstring) : option JS.jsstring :=
  match field with
  | Some s => if JS.is_empty s then Some [] else Some (JS.trim s)
  | None => Some []
  end.

Definition formatAddress (user : User) : User :=
  {| id := id user;
     name := name user;
     username := username user;
     email := email user;
     phone := phone user;
     street := trimmed_or_empty (street user);
     city := trimmed_or_empty (city user);
     state := trimmed_or_empty (state user);
     zipcode := trimmed_or_empty (zipcode user) |}.

(** On an error the callback rejects and then still reads [results.count],
    with [results] undefined. *)
Definition getUsersCount (c : Sqlite.Database) : JS.promise Z :=
  match Sqlite.get_count_of_users c with
  | Sqlite.Failed error => JS.throw JS.TypeError_undefined (JS.reject error JS.pending)
  | Sqlite.Done count => JS.resolve count JS.pending
  end.

Definition userExists (c : Sqlite.Database) (userId : JS.jsstring) : JS.promise bool :=
  match Sqlite.get_user_count_by_id c userId with
  | Sqlite.Failed error =>
      JS.reject (JS.Err "Failed to verify user existence") JS.pending
  | Sqlite.Done results =>
      JS.resolve (match results with
                  | Some count => 0 <? count
                  | None => false
                  end) JS.pending
  end.

(** On an error the callback rejects and then still calls [results.map],
    with [results] undefined. *)
Definition getUsers (c : Sqlite.Database) (pageNumber pageSize : Z)
  : JS.promise (list User) :=
  match Sqlite.all_users c (pageNumber * pageSize) pageSize with
  | Sqlite.Failed error => JS.throw JS.TypeError_undefined (JS.reject error JS.pending)
  | Sqlite.Done results =>
      let formattedResults := List.map formatAddress results in
      JS.resolve formattedResults JS.pending
  end.

End Users.

(* ================================================================== *)
(** ** Post repository ([db/posts/posts.ts]) *)

Module Posts.

Import PostTypes.

(** What [crypto.randomUUID()] and [new Date().toISOString()] evaluate to
    when [createPost] runs. *)
Record Env : Type := mkEnv {
  randomUUID : JS.completion JS.jsstring;
  toISOString : JS.jsstring
}.

(** On an error the callback rejects; the [resolve(results)] that follows
    is then ignored. *)
Definition getPosts (c : Sqlite.Database) (userId : JS.jsstring)
  : JS.promise (list Post) :=
  match Sqlite.all_posts c userId with
  | Sqlite.Failed error => JS.reject error JS.pending
  | Sqlite.Done results => JS.resolve results JS.pending
  end.

Definition createPost (env : Env) (c : Sqlite.Database)
  (userId title body : JS.jsstring) : JS.promise Post * Sqlite.Database :=
  match randomUUID env with
  | JS.Throw error => (JS.reject (JS.Err "Failed to create post") JS.pending, c)
  | JS.Normal id =>
      let createdAt := toISOString env in
      let '(ran, c') :=
        Sqlite.run_insert_post c (mkPost id userId title body createdAt) in
      match ran with
      | Sqlite.Failed error =>
          (JS.reject (JS.Err "Failed to save post to database") JS.pending, c')
      | Sqlite.Done changes =>
          if changes =? 0 then
            (JS.reject (JS.Err "Post was not created") JS.pending, c')
          else
            (JS.resolve {| id := id;
                           user_id := userId;
                           title := title;
                           body := body;
                           created_at := createdAt |} JS.pending, c')
      end
  end.

Definition deletePost (c : Sqlite.Database) (postId : JS.jsstring)
  : JS.promise bool * Sqlite.Database :=
  let '(ran, c') := Sqlite.run_delete_post c postId in
  match ran with
  | Sqlite.Failed error =>
      (JS.reject (JS.Err "Failed to delete post from database") JS.pending, c')
  | Sqlite.Done changes => (JS.resolve (0 <? changes) JS.pending, c')
  end.

End Posts.

(* ================================================================== *)
(** ** What a route handler does with a request *)

Module Http.

Inductive body : Type :=
| JsonError (error : string)              (* [{ error }] *)
| JsonMessage (message : string)          (* [{ message }] *)
| JsonCount (count : Z)                   (* [{ count }] *)
| JsonUsers (users : list UserTypes.User)
| JsonPosts (posts : list PostTypes.Post)
| JsonPost (post : PostTypes.Post)
| NoBody.

(** The handler sent a response, or its promise rejected before it sent
    one, or it never resumed. *)
Inductive result : Type :=
| Sent (status : Z) (payload : body)
| Unhandled (e : JS.Error)
| Stalled.

(** A handler's result and the connection it leaves behind. *)
Definition handled : Type := (result * Sqlite.Database)%type.

End Http.

(* ================================================================== *)
(** ** Users router ([routes/users.ts]) *)

Module UsersRouter.

Import Http.

(** [router.get("/")]: the two arguments are [req.query.pageNumber] and
    [req.query.pageSize].  [res.send] without [res.status] answers 200. *)
Definition get_root (c : Sqlite.Database) (q_pageNumber q_pageSize : JS.param)
  : handled :=
  let pageNumber := JS.or_default (JS.to_number q_pageNumber) 0 in
  let pageSize := JS.or_default (JS.to_number q_pageSize) 4 in
  if (pageNumber <? 0) || (pageSize <? 1) then
    (Sent 400 (JsonMessage "Invalid page number or page size"), c)
  else
    JS.await (Users.getUsers c pageNumber pageSize)
      (Stalled, c)
      (fun e => (Unhandled e, c))
      (fun users => (Sent 200 (JsonUsers users), c)).

(** [router.get("/count")] *)
Definition get_count (c : Sqlite.Database) : handled :=
  JS.await (Users.getUsersCount c)
    (Stalled, c)
    (fun e => (Unhandled e, c))
    (fun count => (Sent 200 (JsonCount count), c)).

End UsersRouter.

(* ================================================================== *)
(** ** Posts router ([routes/posts.ts]) *)

Module PostsRouter.

Import Http.

(** The [catch] block shared by the two [try] handlers. *)
Definition internal_server_error : result :=
  Sent 500 (JsonError "Internal server error").

(** [router.get("/")]: the argument is [req.query.userId?.toString()],
    [None] when the parameter is absent; [!userId] holds for [undefined] and
    for the empty string. *)
Definition get_root (c : Sqlite.Database) (userId : option JS.jsstring)
  : handled :=
  match userId with
  | None => (Sent 400 (JsonError "userId is required"), c)
  | Some u =>
      if JS.is_empty u then
        (Sent 400 (JsonError "userId is required"), c)
      else
        JS.await (Posts.getPosts c u)
          (Stalled, c)
          (fun e => (Unhandled e, c))
          (fun posts => (Sent 200 (JsonPosts posts), c))
  end.

(** [router.post("/")]: the three values are the [title], [body] and
    [userId] fields of [req.body]. *)
Definition post_root (env : Posts.Env) (c : Sqlite.Database)
  (title body userId : JS.value) : handled :=
  if negb (JS.truthy title) || negb (JS.typeof_string title) then
    (Sent 400 (JsonError "Title is required and must be a string"), c)
  else if negb (JS.truthy body) || negb (JS.typeof_string body) then
    (Sent 400 (JsonError "Body is required and must be a string"), c)
  else if negb (JS.truthy userId) || negb (JS.typeof_string userId) then
    (Sent 400 (JsonError "User ID is required and must be a string"), c)
  else
    match JS.trim_value title, JS.trim_value body, JS.trim_value userId with
    | JS.Normal trimmedTitle, JS.Normal trimmedBody, JS.Normal trimmedUserId =>
        if JS.is_empty trimmedTitle then
          (Sent 400 (JsonError "Title cannot be empty or contain only whitespace"), c)
        else if JS.is_empty trimmedBody then
          (Sent 400 (JsonError "Body cannot be empty or contain only whitespace"), c)
        else if JS.is_empty trimmedUserId then
          (Sent 400 (JsonError "User ID cannot be empty or contain only whitespace"), c)
        else
          JS.await (Users.userExists c trimmedUserId)
            (Stalled, c)
            (fun e => (internal_server_error, c))
            (fun userExistsResult =>
               if negb userExistsResult then
                 (Sent 404 (JsonError "User not found"), c)
               else
                 let '(created, c') :=
                   Posts.createPost env c trimmedUserId trimmedTitle trimmedBody in
                 JS.await created
                   (Stalled, c')
                   (fun e => (internal_server_error, c'))
                   (fun newPost => (Sent 201 (JsonPost newPost), c')))
    | _, _, _ => (internal_server_error, c)
    end.

(** [router.delete("/:id")]: the argument is [req.params.id]. *)
Definition delete_id (c : Sqlite.Database) (id : JS.value) : handled :=
  if negb (JS.truthy id) then
    (Sent 400 (JsonError "Post ID is required"), c)
  else if negb (JS.typeof_string id) then
    (Sent 400 (JsonError "Post ID is required"), c)
  else
    match JS.trim_value id with
    | JS.Throw e => (internal_server_error, c)
    | JS.Normal trimmedId =>
        if JS.is_empty trimmedId then
          (Sent 400 (JsonError "Post ID is required"), c)
        else
          let '(deletion, c') := Posts.deletePost c trimmedId in
          JS.await deletion
            (Stalled, c')
            (fun e => (internal_server_error, c'))
            (fun deleted =>
               if negb deleted then
                 (Sent 404 (JsonError "Post not found"), c')
               else
                 (Sent 204 NoBody, c'))
    end.

End PostsRouter.

(* ================================================================== *)
(** ** Vocabulary of the specification *)

Module Specified.

Import JS UserTypes PostTypes Http.

(** No white space at either end. *)
Definition clean_ends (s : jsstring) : Prop :=
  (forall c r, s = c :: r -> is_white_space c = false) /\
  (forall r c, s = r ++ [c] -> is_white_space c = false).

(** An address field on the way out: null becomes the empty string, text
    is trimmed. *)
Definition normalized_field (stored returned : option jsstring) : Prop :=
  match stored with
  | None => returned = Some []
  | Some s => returned = Some (trim s)
  end /\
  exists v, returned = Some v /\ clean_ends v.

(** A returned user against the stored row it comes from. *)
Definition normalized (row u : User) : Prop :=
  UserTypes.id u = UserTypes.id row /\
  name u = name row /\
  username u = username row /\
  email u = email row /\
  phone u = phone row /\
  normalized_field (street row) (street u) /\
  normalized_field (city row) (city u) /\
  normalized_field (state row) (state u) /\
  normalized_field (zipcode row) (zipcode u).

(** The creation pipeline as the specification words it: a field passes
    the first three checks as soon as it is present and a string. *)
Definition post_root_as_specified (env : Posts.Env) (c : Sqlite.Database)
  (title body userId : value) : handled :=
  match title with
  | VString t =>
      match body with
      | VString b =>
          match userId with
          | VString u =>
              if is_empty (trim t) then
                (Sent 400 (JsonError "Title cannot be empty or contain only whitespace"), c)
              else if is_empty (trim b) then
                (Sent 400 (JsonError "Body cannot be empty or contain only whitespace"), c)
              else if is_empty (trim u) then
                (Sent 400 (JsonError "User ID cannot be empty or contain only whitespace"), c)
              else
                match JS.state (Users.userExists c (trim u)) with
                | Some (Resolved false) =>
                    (Sent 404 (JsonError "User not found"), c)
                | Some (Resolved true) =>
                    let '(created, c') :=
                      Posts.createPost env c (trim u) (trim t) (trim b) in
                    match JS.state created with
                    | Some (Resolved newPost) => (Sent 201 (JsonPost newPost), c')
                    | _ => (Sent 500 (JsonError "Internal server error"), c')
                    end
                | _ => (Sent 500 (JsonError "Internal server error"), c)
                end
          | _ => (Sent 400 (JsonError "User ID is required and must be a string"), c)
          end
      | _ => (Sent 400 (JsonError "Body is required and must be a string"), c)
      end
  | _ => (Sent 400 (JsonError "Title is required and must be a string"), c)
  end.

(** A body field the first three checks of the handler let through: a
    string that is not empty. *)
Definition supplied (v : value) (s : jsstring) : Prop :=
  v = VString s /\ s <> [].

(** The rows of other posts. *)
Definition other_posts (postId : jsstring) (rows : list Post) : list Post :=
  filter (fun p => negb (JS.eqb (PostTypes.id p) postId)) rows.

(** The posts of one user, in storage order. *)
Definition posts_of (userId : jsstring) (rows : list Post) : list Post :=
  filter (fun p => JS.eqb (user_id p) userId) rows.

End Specified.

(* ================================================================== *)
(** ** Sample data *)

Module Sample.

Import JS UserTypes PostTypes Sqlite.

Definition user (i n : string) (st ci sa zi : option jsstring) : User :=
  mkUser (js i) (js n) (js n) (js (n ++ "@example.com")) (js "555-0100")
         st ci sa zi.

Definition ada : User :=
  user "u1" "ada" (Some (js "  12 Elm St ")) None (Some (js "NY")) (Some []).
Definition bob : User := user "u2" "bob" None None None None.
Definition cyd : User :=
  user "u3" "cyd" (Some (js "7 Oak Ave")) (Some (js " Salem")) None None.
Definition dee : User := user "u4" "dee" None (Some (js "Troy ")) None None.
Definition eve : User := user "u5" "eve" None None None (Some (js "10001")).

Definition hello : Post :=
  mkPost (js "p1") (js "u1") (js "Hello") (js "World") (js "2025-01-01T00:00:00.000Z").
Definition again : Post :=
  mkPost (js "p2") (js "u2") (js "Again") (js "Text") (js "2025-01-02T00:00:00.000Z").

Definition healthy : Statement -> option Error := fun _ => None.

Definition disk_error : Error := Err "SQLITE_IOERR: disk I/O error".

Definition db : Database :=
  mkDatabase (mkTables [ada; bob; cyd; dee; eve] [hello; again]) healthy.

(** The same tables behind a connection on which every statement fails. *)
Definition broken_db : Database :=
  mkDatabase (tables db) (fun _ => Some disk_error).

(** Reads work, the insert fails. *)
Definition readonly_db : Database :=
  mkDatabase (tables db)
    (fun st => match st with InsertPost => Some disk_error | _ => None end).

(** A directory in which one user id is another one padded with spaces. *)
Definition padded_db : Database :=
  mkDatabase (mkTables [user " u1 " "pad" None None None None; ada] []) healthy.

Definition env : Posts.Env :=
  Posts.mkEnv (Normal (js "3b241101-e2bb-4255-8caf-4136c566a962"))
              (js "2025-03-04T05:06:07.000Z").

Definition env_no_uuid : Posts.Env :=
  Posts.mkEnv (Throw (Err "randomUUID is not available"))
              (js "2025-03-04T05:06:07.000Z").

End Sample.

(* ================================================================== *)
(** ** Client: page controls ([components/Paginations.tsx]) *)

Module Pagination.

(** What [renderPages] pushes: a page button (its React key, the page its
    [onClick] passes to [onPageChange], the number it shows, whether it is
    highlighted as the current page) or an ellipsis. *)
Inductive element : Type :=
| Button (key : Z) (page : Z) (label : Z) (active : bool)
| Dots (key : string).

(** The values [i] takes in [for (let i = start; i <= end; i++)]. *)
Definition upto (start end_ : Z) : list Z :=
  List.map (fun k => start + Z.of_nat k) (seq 0 (Z.to_nat (end_ - start + 1))).

Definition renderPages (currentPage totalPages : Z) : list element :=
  let maxVisible := 5 in
  let start := Z.max 0 (currentPage - 2) in
  let end_ := Z.min (totalPages - 1) (currentPage + 2) in
  let end_ :=
    if currentPage <=? 1 then Z.min (totalPages - 1) (maxVisible - 1) else end_ in
  let start :=
    if totalPages - 2 <=? currentPage then Z.max 0 (totalPages - maxVisible)
    else start in
  (if 0 <? start then
     Button 0 0 1 false
     :: (if 1 <? start then [Dots "dots-start"] else [])
   else [])
  ++ List.map (fun i => Button i i (i + 1) (i =? currentPage)) (upto start end_)
  ++ (if end_ <? totalPages - 1 then
        (if end_ <? totalPages - 2 then [Dots "dots-end"] else [])
        ++ [Button (totalPages - 1) (totalPages - 1) totalPages false]
      else []).

(** The pages the control can pass to [onPageChange]: Previous (unless
    disabled, [currentPage === 0]), the page buttons, Next (unless disabled,
    [currentPage === totalPages - 1]). *)
Definition pages_of (elements : list element) : list Z :=
  flat_map (fun e => match e with Button _ page _ _ => [page] | Dots _ => [] end)
           elements.


(** The pages shown as highlighted. *)
Definition highlighted (elements : list element) : list Z :=
  flat_map (fun e =>
              match e with
              | Button _ page _ true => [page]
              | _ => []
              end) elements.

(** Ellipses sit exactly in the gaps: between two neighbouring buttons
    there is an ellipsis iff their pages are not consecutive. *)
Fixpoint gaps_marked (elements : list element) : Prop :=
  match elements with
  | Button _ p _ _ :: ((Button _ q _ _ :: _) as rest) =>
      q = p + 1 /\ gaps_marked rest
  | Button _ p _ _ :: Dots _ :: ((Button _ q _ _ :: _) as rest) =>
      p + 1 < q /\ gaps_marked rest
  | [Button _ _ _ _] => True
  | [] => True
  | _ => False
  end.

End Pagination.

(* ================================================================== *)
(** ** Client: users page ([pages/Users/UsersPage.tsx]) *)

Module UsersPage.

Import UserTypes.

Definition PAGE_SIZE : Z := 4.

(** [countData?.count || 0]; [countData] is [undefined] until the count
    has been fetched. *)
Definition totalUsers (countData : option Z) : Z :=
  match countData with
  | Some count => if count =? 0 then 0 else count
  | None => 0
  end.

(** [Math.ceil(totalUsers / PAGE_SIZE)] on integers. *)
Definition totalPages (countData : option Z) : Z :=
  - ((- totalUsers countData) / PAGE_SIZE).

(** [Boolean(part)] for an address part: false for [null] and for the
    empty string. *)
Definition Boolean (part : option JS.jsstring) : bool :=
  match part with
  | Some s => negb (JS.is_empty s)
  | None => false
  end.

(** [parts.join(separator)]; a [null] element is joined as the empty
    string. *)
Fixpoint join (separator : JS.jsstring) (parts : list (option JS.jsstring))
  : JS.jsstring :=
  match parts with
  | [] => []
  | [p] => match p with Some s => s | None => [] end
  | p :: rest =>
      (match p with Some s => s | None => [] end)
      ++ separator ++ join separator rest
  end.

Definition formatAddress (user : User) : JS.jsstring :=
  let parts :=
    filter Boolean [street user; state user; city user; zipcode user] in
  if (0 <? List.length parts)%nat then join (JS.js ", ") parts
  else JS.js "No address".

End UsersPage.

(* ================================================================== *)
(** ** Client: new post form ([components/NewPostModal.tsx]) *)

Module NewPostModal.

(** What [handleSubmit] does with the form state: it sets the message and,
    when the form is accepted, calls [createPostMutation.mutate] with a
    title and a body. *)
Inductive submitted : Type :=
| Refused (message : string)
| Mutate (message : string) (title body : JS.jsstring).

Definition handleSubmit (title body : JS.jsstring) : submitted :=
  if JS.is_empty (JS.trim title) || JS.is_empty (JS.trim body) then
    Refused "Title and content are required."
  else
    Mutate "Publishing post..." (JS.trim title) (JS.trim body).

End NewPostModal.

(* ================================================================== *)
(** ** Client: delete confirmation on the posts page
       ([pages/Posts/PostsPage.tsx]) *)

Module PostsPage.

(** The two pieces of state behind the confirmation dialog. *)
Record State : Type := mkState {
  deleteModalOpen : bool;
  postToDelete : option JS.jsstring
}.

Definition initial : State := mkState false None.

Definition handleDeletePost (postId : JS.jsstring) (s : State) : State :=
  mkState true (Some postId).

(** The new state and the id passed to [deletePostMutation.mutate], if
    any; [if (postToDelete)] fails for [null] and for the empty string. *)
Definition confirmDelete (s : State) : State * option JS.jsstring :=
  match postToDelete s with
  | Some postId =>
      if JS.is_empty postId then (s, None)
      else (mkState false None, Some postId)
  | None => (s, None)
  end.

Definition cancelDelete (s : State) : State := mkState false None.

(** What the user does with the dialog and the trash buttons. *)
Inductive event : Type :=
| ClickTrash (postId : JS.jsstring)
| ClickConfirm
| ClickCancel.

(** The state after a sequence of events and the ids sent for deletion,
    oldest first. *)
Fixpoint run (events : list event) (s : State) : State * list JS.jsstring :=
  match events with
  | [] => (s, [])
  | ClickTrash postId :: rest => run rest (handleDeletePost postId s)
  | ClickConfirm :: rest =>
      let '(s', sent) := confirmDelete s in
      let '(final, later) := run rest s' in
      (final, match sent with Some postId => postId :: later | None => later end)
  | ClickCancel :: rest => run rest (cancelDelete s)
  end.

End PostsPage.

(* ================================================================== *)
(** ** Vocabulary of the further properties *)

Module Further.

Import JS UserTypes PostTypes.

(** Every stored post belongs to a stored user. *)
Definition referential (c : Sqlite.Database) : Prop :=
  forall p, In p (Sqlite.posts (Sqlite.tables c)) ->
  exists u, In u (Sqlite.users (Sqlite.tables c)) /\
            UserTypes.id u = user_id p.

(** Null, empty or white space only. *)
Definition blank (part : option jsstring) : bool :=
  match part with
  | Some s => forallb is_white_space s
  | None => true
  end.

(** The address parts in display order. *)
Definition parts_of (user : User) : list (option jsstring) :=
  [street user; state user; city user; zipcode user].

(** The parts that are not blank, trimmed, in display order. *)
Definition shown_parts (user : User) : list (option jsstring) :=
  List.map (option_map trim)
    (filter (fun part => negb (blank part)) (parts_of user)).

(** A storage on which the same statements fail but whose users table
    is another one. *)
Definition with_users (c : Sqlite.Database) (directory : list User)
  : Sqlite.Database :=
  Sqlite.mkDatabase
    (Sqlite.mkTables directory (Sqlite.posts (Sqlite.tables c)))
    (Sqlite.fault c).

End Further.

(** Case analysis on every test and every match of a handler. *)
Ltac branches :=
  repeat match goal with
    | |- context [if ?b then _ else _] => destruct b
    | |- context [match ?x with _ => _ end] => destruct x
    end.

(* ================================================================== *)
(** * Properties *)

(** ** Strings *)

Lemma eqb_eq (s t : JS.jsstring) : JS.eqb s t = true <-> s = t.
Proof.
  revert t; induction s as [|a s IH]; intros [|b t]; simpl;
    try (split; [discriminate | discriminate]); try tauto.
  rewrite andb_true_iff, N.eqb_eq, IH.
  split; [intros [-> ->]; reflexivity | intros H; inversion H; auto].
Qed.

Lemma eqb_refl (s : JS.jsstring) : JS.eqb s s = true.
Proof. apply eqb_eq; reflexivity. Qed.

Lemma eqb_neq (s t : JS.jsstring) : JS.eqb s t = false <-> s <> t.
Proof.
  rewrite <- eqb_eq. destruct (JS.eqb s t); split; congruence.
Qed.

Lemma is_empty_nil (s : JS.jsstring) : JS.is_empty s = true <-> s = [].
Proof. destruct s; simpl; split; congruence. Qed.

Lemma is_empty_false (s : JS.jsstring) : JS.is_empty s = false <-> s <> [].
Proof. destruct s; simpl; split; congruence. Qed.

Lemma trim_nil : JS.trim [] = [].
Proof. reflexivity. Qed.

Lemma trimStart_split (s : JS.jsstring) :
  exists l, s = l ++ JS.trimStart s /\
            Forall (fun c => JS.is_white_space c = true) l.
Proof.
  induction s as [|c s [l [E F]]]; simpl.
  - exists []; split; [reflexivity | constructor].
  - destruct (JS.is_white_space c) eqn:W.
    + exists (c :: l); split; [simpl; congruence | constructor; assumption].
    + exists []; split; [reflexivity | constructor].
Qed.

Lemma trimStart_head (s : JS.jsstring) c r :
  JS.trimStart s = c :: r -> JS.is_white_space c = false.
Proof.
  induction s as [|a s IH]; simpl; [discriminate|].
  destruct (JS.is_white_space a) eqn:W; [assumption|].
  intros H; inversion H; subst; assumption.
Qed.

Lemma trimEnd_split (s : JS.jsstring) :
  exists r, s = JS.trimEnd s ++ r /\
            Forall (fun c => JS.is_white_space c = true) r.
Proof.
  unfold JS.trimEnd.
  destruct (trimStart_split (rev s)) as [l [E F]].
  exists (rev l); split.
  - rewrite <- rev_app_distr, <- E, rev_involutive; reflexivity.
  - apply Forall_rev; assumption.
Qed.

Lemma trimEnd_last (s : JS.jsstring) r c :
  JS.trimEnd s = r ++ [c] -> JS.is_white_space c = false.
Proof.
  unfold JS.trimEnd; intros H.
  apply (f_equal (@rev N)) in H.
  rewrite rev_involutive, rev_app_distr in H; simpl in H.
  eapply trimStart_head; eassumption.
Qed.

Lemma trimEnd_head (s : JS.jsstring) c r :
  JS.trimEnd s = c :: r -> exists r', s = c :: r'.
Proof.
  intros H. destruct (trimEnd_split s) as [t [E _]].
  rewrite H in E. exists (r ++ t). exact E.
Qed.

(** [trim] removes white space, only white space, and all of it, from both
    ends. *)
Lemma trim_spec (s : JS.jsstring) :
  (exists l r, s = l ++ JS.trim s ++ r /\
               Forall (fun c => JS.is_white_space c = true) l /\
               Forall (fun c => JS.is_white_space c = true) r) /\
  Specified.clean_ends (JS.trim s).
Proof.
  unfold JS.trim. split.
  - destruct (trimStart_split s) as [l [E F]].
    destruct (trimEnd_split (JS.trimStart s)) as [r [E' F']].
    exists l, r. split; [|split; assumption].
    rewrite <- E'; exact E.
  - split.
    + intros c r H. apply trimEnd_head in H. destruct H as [r' H].
      eapply trimStart_head; eassumption.
    + intros r c H. eapply trimEnd_last; eassumption.
Qed.

Lemma trim_empty_string (s : JS.jsstring) : JS.is_empty s = true -> JS.trim s = [].
Proof. intros H; apply is_empty_nil in H; subst; reflexivity. Qed.

(** ** User repository *)

Lemma trimmed_or_empty_normalized (f : option JS.jsstring) :
  Specified.normalized_field f (Users.trimmed_or_empty f).
Proof.
  unfold Specified.normalized_field, Users.trimmed_or_empty.
  destruct f as [s|].
  - destruct (JS.is_empty s) eqn:E.
    + rewrite (trim_empty_string s E). split; [reflexivity|].
      exists []; split; [reflexivity|].
      split; intros; [discriminate | destruct r; discriminate].
    + split; [reflexivity|].
      exists (JS.trim s); split; [reflexivity | apply trim_spec].
  - split; [reflexivity|].
    exists []; split; [reflexivity|].
    split; intros; [discriminate | destruct r; discriminate].
Qed.

Lemma formatAddress_normalized (row : UserTypes.User) :
  Specified.normalized row (Users.formatAddress row).
Proof.
  unfold Specified.normalized, Users.formatAddress; simpl.
  repeat split; try reflexivity; try apply trimmed_or_empty_normalized;
    destruct (trimmed_or_empty_normalized (UserTypes.street row)) as [_ H1];
    destruct (trimmed_or_empty_normalized (UserTypes.city row)) as [_ H2];
    destruct (trimmed_or_empty_normalized (UserTypes.state row)) as [_ H3];
    destruct (trimmed_or_empty_normalized (UserTypes.zipcode row)) as [_ H4];
    assumption.
Qed.

Lemma map_formatAddress_normalized (rows : list UserTypes.User) :
  Forall2 Specified.normalized rows (List.map Users.formatAddress rows).
Proof.
  induction rows; simpl; constructor;
    [apply formatAddress_normalized | assumption].
Qed.

Lemma getUsers_healthy (c : Sqlite.Database) (pageNumber pageSize : Z) :
  Sqlite.fault c Sqlite.SelectUsers = None ->
  Users.getUsers c pageNumber pageSize =
  JS.mkPromise
    (Some (JS.Resolved
       (List.map Users.formatAddress
          (Sqlite.limit_offset (pageNumber * pageSize) pageSize
             (Sqlite.users (Sqlite.tables c))))))
    None.
Proof.
  intros H. unfold Users.getUsers, Sqlite.all_users. rewrite H. reflexivity.
Qed.

(** C5. For every user that [getUsers] returns, each address field
    (street, city, state, zipcode) that is null in the stored row comes back
    as the empty string and each non-null one comes back trimmed, so all
    four are strings without surrounding white space, never null. *)
Theorem getUsers_normalizes_addresses
  (c : Sqlite.Database) (pageNumber pageSize : Z) :
  Sqlite.fault c Sqlite.SelectUsers = None ->
  exists rows returned,
    Sqlite.all_users c (pageNumber * pageSize) pageSize = Sqlite.Done rows /\
    JS.state (Users.getUsers c pageNumber pageSize)
      = Some (JS.Resolved returned) /\
    Forall2 Specified.normalized rows returned.
Proof.
  intros H.
  exists (Sqlite.limit_offset (pageNumber * pageSize) pageSize
            (Sqlite.users (Sqlite.tables c))).
  eexists. split; [|split].
  - unfold Sqlite.all_users; rewrite H; reflexivity.
  - rewrite (getUsers_healthy c _ _ H); reflexivity.
  - apply map_formatAddress_normalized.
Qed.

Lemma getUsers_normalizes_addresses_witness :
  exists rows returned,
    Sqlite.all_users Sample.db (0 * 4) 4 = Sqlite.Done rows /\
    JS.state (Users.getUsers Sample.db 0 4) = Some (JS.Resolved returned) /\
    Forall2 Specified.normalized rows returned.
Proof.
  apply (getUsers_normalizes_addresses Sample.db 0 4). reflexivity.
Defined.

Lemma getUsersCount_healthy (c : Sqlite.Database) :
  Sqlite.fault c Sqlite.SelectCountOfUsers = None ->
  Users.getUsersCount c =
  JS.mkPromise
    (Some (JS.Resolved (Z.of_nat (List.length (Sqlite.users (Sqlite.tables c))))))
    None.
Proof.
  intros H. unfold Users.getUsersCount, Sqlite.get_count_of_users.
  rewrite H. reflexivity.
Qed.

Lemma limit_offset_page {A : Type} (offset limit : Z) (rows : list A) :
  0 <= limit ->
  Sqlite.limit_offset offset limit rows =
  firstn (Z.to_nat limit) (skipn (Z.to_nat offset) rows).
Proof.
  intros H. unfold Sqlite.limit_offset.
  destruct (Z.ltb_spec limit 0); [lia | reflexivity].
Qed.

Lemma page_length {A : Type} (offset limit : Z) (rows : list A) :
  0 <= offset -> 0 <= limit ->
  Z.of_nat (List.length (firstn (Z.to_nat limit) (skipn (Z.to_nat offset) rows)))
  = Z.min limit (Z.max 0 (Z.of_nat (List.length rows) - offset)).
Proof.
  intros Ho Hl. rewrite length_firstn, length_skipn. lia.
Qed.

(** C6. For all pageNumber >= 0 and pageSize >= 1, [getUsers] returns the
    users found in storage order from offset pageNumber * pageSize on, at
    most pageSize of them, and no more than countUsers() - pageNumber *
    pageSize of them when that difference is positive. *)
Theorem getUsers_page (c : Sqlite.Database) (pageNumber pageSize : Z) :
  0 <= pageNumber ->
  1 <= pageSize ->
  Sqlite.fault c Sqlite.SelectUsers = None ->
  Sqlite.fault c Sqlite.SelectCountOfUsers = None ->
  exists returned count,
    JS.state (Users.getUsers c pageNumber pageSize)
      = Some (JS.Resolved returned) /\
    JS.state (Users.getUsersCount c) = Some (JS.Resolved count) /\
    returned =
      List.map Users.formatAddress
        (firstn (Z.to_nat pageSize)
           (skipn (Z.to_nat (pageNumber * pageSize))
              (Sqlite.users (Sqlite.tables c)))) /\
    Z.of_nat (List.length returned) <= pageSize /\
    (0 < count - pageNumber * pageSize ->
     Z.of_nat (List.length returned) <= count - pageNumber * pageSize).
Proof.
  intros Hn Hs Hu Hc.
  rewrite (getUsers_healthy c _ _ Hu), (getUsersCount_healthy c Hc); simpl.
  eexists; eexists.
  split; [reflexivity|]. split; [reflexivity|].
  rewrite limit_offset_page by lia.
  split; [reflexivity|].
  rewrite length_map, page_length by nia.
  split; lia.
Qed.

Lemma getUsers_page_witness :
  exists returned count,
    JS.state (Users.getUsers Sample.db 1 2) = Some (JS.Resolved returned) /\
    JS.state (Users.getUsersCount Sample.db) = Some (JS.Resolved count) /\
    returned =
      List.map Users.formatAddress
        (firstn (Z.to_nat 2)
           (skipn (Z.to_nat (1 * 2)) (Sqlite.users (Sqlite.tables Sample.db)))) /\
    Z.of_nat (List.length returned) <= 2 /\
    (0 < count - 1 * 2 -> Z.of_nat (List.length returned) <= count - 1 * 2).
Proof.
  apply (getUsers_page Sample.db 1 2); [lia | lia | reflexivity | reflexivity].
Defined.

(** ** Post repository *)

Lemma deletePost_healthy (c : Sqlite.Database) (postId : JS.jsstring) :
  Sqlite.fault c Sqlite.DeletePost = None ->
  Posts.deletePost c postId =
  (JS.mkPromise
     (Some (JS.Resolved
        (0 <? Z.of_nat
           (List.length (Sqlite.posts (Sqlite.tables c)) -
            List.length (Specified.other_posts postId
                           (Sqlite.posts (Sqlite.tables c)))))))
     None,
   Sqlite.with_posts c
     (Specified.other_posts postId (Sqlite.posts (Sqlite.tables c)))).
Proof.
  intros H. unfold Posts.deletePost, Sqlite.run_delete_post.
  rewrite H. reflexivity.
Qed.

Lemma deletePost_faulty (c : Sqlite.Database) (postId : JS.jsstring) e :
  Sqlite.fault c Sqlite.DeletePost = Some e ->
  Posts.deletePost c postId =
  (JS.mkPromise
     (Some (JS.Rejected (JS.Err "Failed to delete post from database"))) None,
   c).
Proof.
  intros H. unfold Posts.deletePost, Sqlite.run_delete_post.
  rewrite H. reflexivity.
Qed.

Lemma other_posts_shorter (postId : JS.jsstring) (rows : list PostTypes.Post) :
  (List.length (Specified.other_posts postId rows) < List.length rows)%nat <->
  exists row, In row rows /\ PostTypes.id row = postId.
Proof.
  unfold Specified.other_posts.
  induction rows as [|p rows IH]; simpl.
  - split; [lia | intros [row [[] _]]].
  - destruct (JS.eqb (PostTypes.id p) postId) eqn:E; simpl.
    + split; intros _.
      * exists p; split; [left; reflexivity | apply eqb_eq; assumption].
      * pose proof (filter_length_le
          (fun q => negb (JS.eqb (PostTypes.id q) postId)) rows). lia.
    + rewrite <- Nat.succ_lt_mono, IH.
      split; intros [row [Hin Hid]].
      * exists row; split; [right; assumption | assumption].
      * destruct Hin as [<- | Hin].
        -- apply eqb_neq in E; contradiction.
        -- exists row; split; assumption.
Qed.

Lemma in_other_posts (postId : JS.jsstring) (rows : list PostTypes.Post) row :
  In row (Specified.other_posts postId rows) <->
  In row rows /\ PostTypes.id row <> postId.
Proof.
  unfold Specified.other_posts. rewrite filter_In, negb_true_iff, eqb_neq.
  reflexivity.
Qed.

Lemma other_posts_idempotent (postId : JS.jsstring) (rows : list PostTypes.Post) :
  Specified.other_posts postId (Specified.other_posts postId rows)
  = Specified.other_posts postId rows.
Proof.
  unfold Specified.other_posts.
  induction rows as [|p rows IH]; simpl; [reflexivity|].
  destruct (negb (JS.eqb (PostTypes.id p) postId)) eqn:E; simpl.
  - rewrite E, IH; reflexivity.
  - exact IH.
Qed.

(** C4. [deletePost(postId)] resolves to true exactly when a stored row
    with that id was removed, and to false when no row matched: whenever a
    stored row has that id it resolves to true and no row with that id
    remains.  A postId that matches nothing never makes it reject: it rejects
    only when the storage itself reports a fault on the delete statement. *)
Theorem deletePost_true_iff_removed (c : Sqlite.Database) (postId : JS.jsstring) :
  (Sqlite.fault c Sqlite.DeletePost = None ->
   exists deleted,
     JS.state (fst (Posts.deletePost c postId)) = Some (JS.Resolved deleted) /\
     (deleted = true <->
      exists row,
        In row (Sqlite.posts (Sqlite.tables c)) /\ PostTypes.id row = postId) /\
     (deleted = true <->
      exists row,
        In row (Sqlite.posts (Sqlite.tables c)) /\
        PostTypes.id row = postId /\
        ~ In row (Sqlite.posts (Sqlite.tables (snd (Posts.deletePost c postId))))) /\
     (forall row,
        In row (Sqlite.posts (Sqlite.tables (snd (Posts.deletePost c postId)))) ->
        PostTypes.id row <> postId) /\
     ((forall row, In row (Sqlite.posts (Sqlite.tables c)) ->
                   PostTypes.id row <> postId) ->
      deleted = false)) /\
  (forall e,
     JS.state (fst (Posts.deletePost c postId)) = Some (JS.Rejected e) ->
     exists f, Sqlite.fault c Sqlite.DeletePost = Some f).
Proof.
  split.
  - intros H. rewrite (deletePost_healthy c postId H); simpl.
    eexists; split; [reflexivity|].
    pose proof (other_posts_shorter postId (Sqlite.posts (Sqlite.tables c))) as S.
    pose proof (filter_length_le
      (fun q => negb (JS.eqb (PostTypes.id q) postId))
      (Sqlite.posts (Sqlite.tables c))) as L.
    fold (Specified.other_posts postId (Sqlite.posts (Sqlite.tables c))) in L.
    set (deleted := 0 <? Z.of_nat
           (List.length (Sqlite.posts (Sqlite.tables c)) -
            List.length (Specified.other_posts postId
                           (Sqlite.posts (Sqlite.tables c))))).
    assert (Matched :
              deleted = true <->
              exists row,
                In row (Sqlite.posts (Sqlite.tables c)) /\
                PostTypes.id row = postId).
    { unfold deleted. rewrite Z.ltb_lt, <- S. lia. }
    split; [exact Matched|].
    split; [split|split].
    + intros D. apply Matched in D. destruct D as [row [Hin Hid]].
      exists row. split; [assumption|]. split; [assumption|].
      rewrite in_other_posts. tauto.
    + intros [row [Hin [Hid _]]]. apply Matched. exists row; split; assumption.
    + intros row Hin. apply in_other_posts in Hin. tauto.
    + intros N. destruct deleted; [|reflexivity].
      destruct (proj1 Matched eq_refl) as [row [Hin Hid]].
      exfalso; exact (N row Hin Hid).
  - intros e H.
    destruct (Sqlite.fault c Sqlite.DeletePost) as [f|] eqn:F.
    + exists f; reflexivity.
    + rewrite (deletePost_healthy c postId F) in H; discriminate.
Qed.

Lemma deletePost_true_iff_removed_witness :
  JS.state (fst (Posts.deletePost Sample.db (JS.js "p1")))
  = Some (JS.Resolved true) /\
  (forall row,
     In row (Sqlite.posts (Sqlite.tables
               (snd (Posts.deletePost Sample.db (JS.js "p1"))))) ->
     PostTypes.id row <> JS.js "p1") /\
  JS.state (fst (Posts.deletePost Sample.db (JS.js "no-such-post")))
  = Some (JS.Resolved false) /\
  (exists f, Sqlite.fault Sample.broken_db Sqlite.DeletePost = Some f).
Proof.
  destruct (proj1 (deletePost_true_iff_removed Sample.db (JS.js "p1")) eq_refl)
    as [deleted [Settled [Matched [_ [Gone _]]]]].
  destruct (proj1 (deletePost_true_iff_removed Sample.db (JS.js "no-such-post"))
              eq_refl)
    as [missed [Settled' [_ [_ [_ Unmatched]]]]].
  assert (D : deleted = true).
  { apply Matched. exists Sample.hello.
    split; [left; reflexivity | reflexivity]. }
  assert (M : missed = false).
  { apply Unmatched. intros row [<- | [<- | []]]; discriminate. }
  subst deleted missed.
  split; [exact Settled|]. split; [exact Gone|]. split; [exact Settled'|].
  apply (proj2 (deletePost_true_iff_removed Sample.broken_db (JS.js "p1")))
    with (e := JS.Err "Failed to delete post from database").
  reflexivity.
Defined.

Lemma deletePost_users (c : Sqlite.Database) (postId : JS.jsstring) :
  Sqlite.users (Sqlite.tables (snd (Posts.deletePost c postId)))
  = Sqlite.users (Sqlite.tables c).
Proof.
  destruct (Sqlite.fault c Sqlite.DeletePost) as [f|] eqn:F.
  - rewrite (deletePost_faulty c postId f F); reflexivity.
  - rewrite (deletePost_healthy c postId F); reflexivity.
Qed.

Lemma deletePost_other_posts (c : Sqlite.Database) (postId : JS.jsstring) :
  Specified.other_posts postId
    (Sqlite.posts (Sqlite.tables (snd (Posts.deletePost c postId))))
  = Specified.other_posts postId (Sqlite.posts (Sqlite.tables c)).
Proof.
  destruct (Sqlite.fault c Sqlite.DeletePost) as [f|] eqn:F.
  - rewrite (deletePost_faulty c postId f F); reflexivity.
  - rewrite (deletePost_healthy c postId F); simpl.
    apply other_posts_idempotent.
Qed.

Lemma createPost_users (env : Posts.Env) (c : Sqlite.Database)
  (userId title body : JS.jsstring) :
  Sqlite.users (Sqlite.tables (snd (Posts.createPost env c userId title body)))
  = Sqlite.users (Sqlite.tables c).
Proof.
  unfold Posts.createPost, Sqlite.run_insert_post.
  destruct (Posts.randomUUID env); [|reflexivity].
  destruct (Sqlite.fault c Sqlite.InsertPost); [reflexivity|].
  destruct (existsb _ _); reflexivity.
Qed.

(** ** Routers *)

Lemma users_get_root_same (c : Sqlite.Database) (p q : JS.param) :
  snd (UsersRouter.get_root c p q) = c.
Proof.
  unfold UsersRouter.get_root, JS.await. branches; reflexivity.
Qed.

Lemma users_get_count_same (c : Sqlite.Database) :
  snd (UsersRouter.get_count c) = c.
Proof.
  unfold UsersRouter.get_count, JS.await. branches; reflexivity.
Qed.

Lemma posts_get_root_same (c : Sqlite.Database) (userId : option JS.jsstring) :
  snd (PostsRouter.get_root c userId) = c.
Proof.
  unfold PostsRouter.get_root, JS.await. branches; reflexivity.
Qed.

Lemma post_root_users (env : Posts.Env) (c : Sqlite.Database)
  (title body userId : JS.value) :
  Sqlite.users (Sqlite.tables (snd (PostsRouter.post_root env c title body userId)))
  = Sqlite.users (Sqlite.tables c).
Proof.
  unfold PostsRouter.post_root, JS.await.
  repeat match goal with
    | |- context [let '(_, _) := Posts.createPost ?e ?d ?u ?t ?b in _] =>
        let H := fresh "H" in
        pose proof (createPost_users e d u t b) as H;
        destruct (Posts.createPost e d u t b); simpl in H
    | |- context [if ?b then _ else _] => destruct b
    | |- context [match ?x with _ => _ end] => destruct x
    end; simpl; try reflexivity; assumption.
Qed.

Lemma delete_id_users (c : Sqlite.Database) (id : JS.value) :
  Sqlite.users (Sqlite.tables (snd (PostsRouter.delete_id c id)))
  = Sqlite.users (Sqlite.tables c).
Proof.
  unfold PostsRouter.delete_id, JS.await.
  repeat match goal with
    | |- context [let '(_, _) := Posts.deletePost ?d ?i in _] =>
        let H := fresh "H" in
        pose proof (deletePost_users d i) as H;
        destruct (Posts.deletePost d i); simpl in H
    | |- context [if ?b then _ else _] => destruct b
    | |- context [match ?x with _ => _ end] => destruct x
    end; simpl; try reflexivity; assumption.
Qed.

(** C10. [deletePost(postId)] leaves every post row whose id differs from
    postId as it was (the same rows in the same order) and leaves the users
    table as it was; and no operation of the system, repository call or route
    handler, ever changes the users table. *)
Theorem deletePost_frame (c : Sqlite.Database) (postId : JS.jsstring) :
  Specified.other_posts postId
    (Sqlite.posts (Sqlite.tables (snd (Posts.deletePost c postId))))
  = Specified.other_posts postId (Sqlite.posts (Sqlite.tables c)) /\
  (forall row, PostTypes.id row <> postId ->
     (In row (Sqlite.posts (Sqlite.tables (snd (Posts.deletePost c postId))))
      <-> In row (Sqlite.posts (Sqlite.tables c)))) /\
  Sqlite.users (Sqlite.tables (snd (Posts.deletePost c postId)))
  = Sqlite.users (Sqlite.tables c) /\
  (forall env userId title body,
     Sqlite.users (Sqlite.tables (snd (Posts.createPost env c userId title body)))
     = Sqlite.users (Sqlite.tables c)) /\
  (forall p q,
     Sqlite.users (Sqlite.tables (snd (UsersRouter.get_root c p q)))
     = Sqlite.users (Sqlite.tables c)) /\
  Sqlite.users (Sqlite.tables (snd (UsersRouter.get_count c)))
  = Sqlite.users (Sqlite.tables c) /\
  (forall userId,
     Sqlite.users (Sqlite.tables (snd (PostsRouter.get_root c userId)))
     = Sqlite.users (Sqlite.tables c)) /\
  (forall env title body userId,
     Sqlite.users
       (Sqlite.tables (snd (PostsRouter.post_root env c title body userId)))
     = Sqlite.users (Sqlite.tables c)) /\
  (forall id,
     Sqlite.users (Sqlite.tables (snd (PostsRouter.delete_id c id)))
     = Sqlite.users (Sqlite.tables c)).
Proof.
  pose proof (deletePost_other_posts c postId) as O.
  repeat split.
  - exact O.
  - intros Hin.
    assert (I : In row (Specified.other_posts postId
                 (Sqlite.posts (Sqlite.tables (snd (Posts.deletePost c postId))))))
      by (apply in_other_posts; auto).
    rewrite O in I. apply in_other_posts in I. tauto.
  - intros Hin.
    assert (I : In row (Specified.other_posts postId
                 (Sqlite.posts (Sqlite.tables c))))
      by (apply in_other_posts; auto).
    rewrite <- O in I. apply in_other_posts in I. tauto.
  - apply deletePost_users.
  - intros; apply createPost_users.
  - intros; rewrite users_get_root_same; reflexivity.
  - rewrite users_get_count_same; reflexivity.
  - intros; rewrite posts_get_root_same; reflexivity.
  - intros; apply post_root_users.
  - intros; apply delete_id_users.
Qed.

Lemma deletePost_frame_witness :
  In Sample.again
    (Sqlite.posts (Sqlite.tables (snd (Posts.deletePost Sample.db (JS.js "p1")))))
  <-> In Sample.again (Sqlite.posts (Sqlite.tables Sample.db)).
Proof.
  apply (deletePost_frame Sample.db (JS.js "p1")). discriminate.
Defined.

(** C3. For every DELETE /posts/:id request: when the id, once trimmed, is
    empty the response is 400 "Post ID is required"; otherwise
    [deletePost] is called with the trimmed id and the response is 404
    "Post not found" when it resolves to false and 204 with an empty body when
    it resolves to true. *)
Theorem delete_id_responses (c : Sqlite.Database) (id : JS.jsstring) :
  (JS.trim id = [] ->
   PostsRouter.delete_id c (JS.VString id)
   = (Http.Sent 400 (Http.JsonError "Post ID is required"), c)) /\
  (JS.trim id <> [] ->
   forall deletion c',
     Posts.deletePost c (JS.trim id) = (deletion, c') ->
     (JS.state deletion = Some (JS.Resolved false) ->
      PostsRouter.delete_id c (JS.VString id)
      = (Http.Sent 404 (Http.JsonError "Post not found"), c')) /\
     (JS.state deletion = Some (JS.Resolved true) ->
      PostsRouter.delete_id c (JS.VString id) = (Http.Sent 204 Http.NoBody, c'))).
Proof.
  unfold PostsRouter.delete_id; simpl. split.
  - intros E. destruct (JS.is_empty id); simpl; [reflexivity|].
    rewrite E; reflexivity.
  - intros N deletion c' D.
    assert (Hid : JS.is_empty id = false).
    { apply is_empty_false. intros ->. apply N. reflexivity. }
    rewrite Hid; simpl.
    apply is_empty_false in N. rewrite N, D.
    unfold JS.await. split; intros ->; reflexivity.
Qed.

Lemma delete_id_responses_witness :
  PostsRouter.delete_id Sample.db (JS.VString (JS.js "   "))
  = (Http.Sent 400 (Http.JsonError "Post ID is required"), Sample.db) /\
  PostsRouter.delete_id Sample.db (JS.VString (JS.js "no-such-post"))
  = (Http.Sent 404 (Http.JsonError "Post not found"),
     snd (Posts.deletePost Sample.db (JS.js "no-such-post"))) /\
  PostsRouter.delete_id Sample.db (JS.VString (JS.js " p1 "))
  = (Http.Sent 204 Http.NoBody, snd (Posts.deletePost Sample.db (JS.js "p1"))).
Proof.
  split; [|split].
  - apply (delete_id_responses Sample.db (JS.js "   ")). reflexivity.
  - apply (proj2 (delete_id_responses Sample.db (JS.js "no-such-post")))
      with (deletion := fst (Posts.deletePost Sample.db (JS.js "no-such-post")));
      [discriminate | reflexivity | reflexivity].
  - apply (proj2 (delete_id_responses Sample.db (JS.js " p1 ")))
      with (deletion := fst (Posts.deletePost Sample.db (JS.js "p1")));
      [discriminate | reflexivity | reflexivity].
Defined.

Lemma guard_missing (v : JS.value) :
  (forall s, ~ Specified.supplied v s) ->
  negb (JS.truthy v) || negb (JS.typeof_string v) = true.
Proof.
  intros M. destruct v as [| |b|n|s|]; simpl;
    try reflexivity; try (apply orb_true_r).
  destruct s as [|a s]; simpl; [reflexivity|].
  exfalso. apply (M (a :: s)). split; [reflexivity | discriminate].
Qed.

Lemma guard_supplied (v : JS.value) (s : JS.jsstring) :
  Specified.supplied v s ->
  negb (JS.truthy v) || negb (JS.typeof_string v) = false /\
  JS.trim_value v = JS.Normal (JS.trim s).
Proof.
  intros [-> N]. destruct s; [contradiction|]. split; reflexivity.
Qed.

(** C1, as amended.  POST /posts checks in this order and stops at the
    first failure: a title that is absent, not a string or the empty string
    gives 400 "Title is required and must be a string"; then the same for
    body ("Body is required ...") and userId ("User ID is required ...");
    then, the three being trimmed, a title, body or userId (in that order)
    that is empty once trimmed gives 400 "... cannot be empty or contain
    only whitespace"; then 404 "User not found" when [userExists] of the
    trimmed userId is false; then [createPost] is called with the trimmed
    values, 201 with the created post when it succeeds; a rejection of
    either repository call gives 500 "Internal server error". *)
Theorem post_root_pipeline (env : Posts.Env) (c : Sqlite.Database)
  (title body userId : JS.value) :
  ((forall s, ~ Specified.supplied title s) ->
   PostsRouter.post_root env c title body userId
   = (Http.Sent 400 (Http.JsonError "Title is required and must be a string"), c)) /\
  (forall t, Specified.supplied title t ->
   (forall s, ~ Specified.supplied body s) ->
   PostsRouter.post_root env c title body userId
   = (Http.Sent 400 (Http.JsonError "Body is required and must be a string"), c)) /\
  (forall t b, Specified.supplied title t -> Specified.supplied body b ->
   (forall s, ~ Specified.supplied userId s) ->
   PostsRouter.post_root env c title body userId
   = (Http.Sent 400 (Http.JsonError "User ID is required and must be a string"), c)) /\
  (forall t b u,
   Specified.supplied title t -> Specified.supplied body b ->
   Specified.supplied userId u ->
   (JS.trim t = [] ->
    PostsRouter.post_root env c title body userId
    = (Http.Sent 400
         (Http.JsonError "Title cannot be empty or contain only whitespace"), c)) /\
   (JS.trim t <> [] -> JS.trim b = [] ->
    PostsRouter.post_root env c title body userId
    = (Http.Sent 400
         (Http.JsonError "Body cannot be empty or contain only whitespace"), c)) /\
   (JS.trim t <> [] -> JS.trim b <> [] -> JS.trim u = [] ->
    PostsRouter.post_root env c title body userId
    = (Http.Sent 400
         (Http.JsonError "User ID cannot be empty or contain only whitespace"), c)) /\
   (JS.trim t <> [] -> JS.trim b <> [] -> JS.trim u <> [] ->
    (JS.state (Users.userExists c (JS.trim u)) = Some (JS.Resolved false) ->
     PostsRouter.post_root env c title body userId
     = (Http.Sent 404 (Http.JsonError "User not found"), c)) /\
    (forall e,
     JS.state (Users.userExists c (JS.trim u)) = Some (JS.Rejected e) ->
     PostsRouter.post_root env c title body userId
     = (Http.Sent 500 (Http.JsonError "Internal server error"), c)) /\
    (JS.state (Users.userExists c (JS.trim u)) = Some (JS.Resolved true) ->
     forall created c',
     Posts.createPost env c (JS.trim u) (JS.trim t) (JS.trim b) = (created, c') ->
     (forall newPost,
      JS.state created = Some (JS.Resolved newPost) ->
      PostsRouter.post_root env c title body userId
      = (Http.Sent 201 (Http.JsonPost newPost), c')) /\
     (forall e,
      JS.state created = Some (JS.Rejected e) ->
      PostsRouter.post_root env c title body userId
      = (Http.Sent 500 (Http.JsonError "Internal server error"), c'))))).
Proof.
  unfold PostsRouter.post_root.
  split; [|split; [|split]].
  - intros M. rewrite (guard_missing title M). reflexivity.
  - intros t St M.
    destruct (guard_supplied title t St) as [-> _].
    rewrite (guard_missing body M). reflexivity.
  - intros t b St Sb M.
    destruct (guard_supplied title t St) as [-> _].
    destruct (guard_supplied body b Sb) as [-> _].
    rewrite (guard_missing userId M). reflexivity.
  - intros t b u St Sb Su.
    destruct (guard_supplied title t St) as [-> ->].
    destruct (guard_supplied body b Sb) as [-> ->].
    destruct (guard_supplied userId u Su) as [-> ->].
    split; [|split; [|split]].
    + intros ->. reflexivity.
    + intros Nt ->. apply is_empty_false in Nt. rewrite Nt. reflexivity.
    + intros Nt Nb ->. apply is_empty_false in Nt, Nb.
      rewrite Nt, Nb. reflexivity.
    + intros Nt Nb Nu. apply is_empty_false in Nt, Nb, Nu.
      rewrite Nt, Nb, Nu. unfold JS.await.
      split; [|split].
      * intros ->. reflexivity.
      * intros e ->. reflexivity.
      * intros -> created c' ->. simpl.
        split; [intros newPost -> | intros e ->]; reflexivity.
Qed.

(** C1 as worded fails on an empty title: the handler answers "Title is
    required and must be a string", while the worded pipeline lets the
    empty string through the first check (it is present and a string) and
    answers "Title cannot be empty or contain only whitespace". *)
Lemma post_root_empty_title :
  PostsRouter.post_root Sample.env Sample.db
    (JS.VString []) (JS.VString (JS.js "World")) (JS.VString (JS.js "u1"))
  = (Http.Sent 400 (Http.JsonError "Title is required and must be a string"),
     Sample.db) /\
  Specified.post_root_as_specified Sample.env Sample.db
    (JS.VString []) (JS.VString (JS.js "World")) (JS.VString (JS.js "u1"))
  = (Http.Sent 400
       (Http.JsonError "Title cannot be empty or contain only whitespace"),
     Sample.db) /\
  PostsRouter.post_root Sample.env Sample.db
    (JS.VString []) (JS.VString (JS.js "World")) (JS.VString (JS.js "u1"))
  <> Specified.post_root_as_specified Sample.env Sample.db
       (JS.VString []) (JS.VString (JS.js "World")) (JS.VString (JS.js "u1")).
Proof.
  split; [reflexivity|]. split; [reflexivity|]. discriminate.
Qed.

Lemma post_root_pipeline_witness :
  PostsRouter.post_root Sample.env Sample.db
    JS.VUndefined (JS.VString (JS.js "World")) (JS.VString (JS.js "u1"))
  = (Http.Sent 400 (Http.JsonError "Title is required and must be a string"),
     Sample.db) /\
  PostsRouter.post_root Sample.env Sample.db
    (JS.VString (JS.js "Hi")) (JS.VString []) (JS.VString (JS.js "u1"))
  = (Http.Sent 400 (Http.JsonError "Body is required and must be a string"),
     Sample.db) /\
  PostsRouter.post_root Sample.env Sample.db
    (JS.VString (JS.js "Hi")) (JS.VString (JS.js "World")) (JS.VNumber (JS.Num 7))
  = (Http.Sent 400 (Http.JsonError "User ID is required and must be a string"),
     Sample.db) /\
  PostsRouter.post_root Sample.env Sample.db
    (JS.VString (JS.js " Hi")) (JS.VString (JS.js "  ")) (JS.VString (JS.js "u1"))
  = (Http.Sent 400
       (Http.JsonError "Body cannot be empty or contain only whitespace"),
     Sample.db) /\
  PostsRouter.post_root Sample.env Sample.db
    (JS.VString (JS.js "Hi")) (JS.VString (JS.js "World")) (JS.VString (JS.js "u9"))
  = (Http.Sent 404 (Http.JsonError "User not found"), Sample.db) /\
  PostsRouter.post_root Sample.env Sample.db
    (JS.VString (JS.js " Hi ")) (JS.VString (JS.js "World ")) (JS.VString (JS.js " u1"))
  = (Http.Sent 201
       (Http.JsonPost
          (PostTypes.mkPost (JS.js "3b241101-e2bb-4255-8caf-4136c566a962")
             (JS.js "u1") (JS.js "Hi") (JS.js "World")
             (JS.js "2025-03-04T05:06:07.000Z"))),
     snd (Posts.createPost Sample.env Sample.db
            (JS.js "u1") (JS.js "Hi") (JS.js "World"))) /\
  PostsRouter.post_root Sample.env Sample.readonly_db
    (JS.VString (JS.js "Hi")) (JS.VString (JS.js "World")) (JS.VString (JS.js "u1"))
  = (Http.Sent 500 (Http.JsonError "Internal server error"), Sample.readonly_db).
Proof.
  refine (conj _ (conj _ (conj _ (conj _ (conj _ (conj _ _)))))).
  - apply (post_root_pipeline Sample.env Sample.db
             JS.VUndefined (JS.VString (JS.js "World")) (JS.VString (JS.js "u1"))).
    intros s [E _]; discriminate.
  - apply (post_root_pipeline Sample.env Sample.db
             (JS.VString (JS.js "Hi")) (JS.VString []) (JS.VString (JS.js "u1")))
      with (t := JS.js "Hi").
    + split; [reflexivity | discriminate].
    + intros s [E N]. inversion E; subst. apply N; reflexivity.
  - apply (post_root_pipeline Sample.env Sample.db
             (JS.VString (JS.js "Hi")) (JS.VString (JS.js "World"))
             (JS.VNumber (JS.Num 7)))
      with (t := JS.js "Hi") (b := JS.js "World").
    + split; [reflexivity | discriminate].
    + split; [reflexivity | discriminate].
    + intros s [E _]; discriminate.
  - apply (post_root_pipeline Sample.env Sample.db
             (JS.VString (JS.js " Hi")) (JS.VString (JS.js "  "))
             (JS.VString (JS.js "u1")))
      with (t := JS.js " Hi") (b := JS.js "  ") (u := JS.js "u1").
    + split; [reflexivity | discriminate].
    + split; [reflexivity | discriminate].
    + split; [reflexivity | discriminate].
    + discriminate.
    + reflexivity.
  - apply (post_root_pipeline Sample.env Sample.db
             (JS.VString (JS.js "Hi")) (JS.VString (JS.js "World"))
             (JS.VString (JS.js "u9")))
      with (t := JS.js "Hi") (b := JS.js "World") (u := JS.js "u9").
    + split; [reflexivity | discriminate].
    + split; [reflexivity | discriminate].
    + split; [reflexivity | discriminate].
    + discriminate.
    + discriminate.
    + discriminate.
    + reflexivity.
  - apply (post_root_pipeline Sample.env Sample.db
             (JS.VString (JS.js " Hi ")) (JS.VString (JS.js "World "))
             (JS.VString (JS.js " u1")))
      with (t := JS.js " Hi ") (b := JS.js "World ") (u := JS.js " u1")
           (created := fst (Posts.createPost Sample.env Sample.db
                              (JS.js "u1") (JS.js "Hi") (JS.js "World"))).
    + split; [reflexivity | discriminate].
    + split; [reflexivity | discriminate].
    + split; [reflexivity | discriminate].
    + discriminate.
    + discriminate.
    + discriminate.
    + reflexivity.
    + reflexivity.
    + reflexivity.
  - apply (post_root_pipeline Sample.env Sample.readonly_db
             (JS.VString (JS.js "Hi")) (JS.VString (JS.js "World"))
             (JS.VString (JS.js "u1")))
      with (t := JS.js "Hi") (b := JS.js "World") (u := JS.js "u1")
           (created := fst (Posts.createPost Sample.env Sample.readonly_db
                              (JS.js "u1") (JS.js "Hi") (JS.js "World")))
           (e := JS.Err "Failed to save post to database").
    + split; [reflexivity | discriminate].
    + split; [reflexivity | discriminate].
    + split; [reflexivity | discriminate].
    + discriminate.
    + discriminate.
    + discriminate.
    + reflexivity.
    + reflexivity.
    + reflexivity.
Defined.

Lemma in_posts_of (userId : JS.jsstring) (rows : list PostTypes.Post) p :
  In p (Specified.posts_of userId rows) <->
  In p rows /\ PostTypes.user_id p = userId.
Proof.
  unfold Specified.posts_of. rewrite filter_In, eqb_eq. reflexivity.
Qed.

Lemma posts_of_none (userId : JS.jsstring) (rows : list PostTypes.Post) :
  (forall p, In p rows -> PostTypes.user_id p <> userId) ->
  Specified.posts_of userId rows = [].
Proof.
  intros H. unfold Specified.posts_of.
  induction rows as [|p rows IH]; simpl; [reflexivity|].
  destruct (JS.eqb (PostTypes.user_id p) userId) eqn:E.
  - apply eqb_eq in E. exfalso. apply (H p); [left; reflexivity | assumption].
  - apply IH. intros q Hq. apply H. right; assumption.
Qed.

Lemma getPosts_healthy (c : Sqlite.Database) (userId : JS.jsstring) :
  Sqlite.fault c Sqlite.SelectPosts = None ->
  Posts.getPosts c userId =
  JS.mkPromise
    (Some (JS.Resolved (Specified.posts_of userId (Sqlite.posts (Sqlite.tables c)))))
    None.
Proof.
  intros H. unfold Posts.getPosts, Sqlite.all_posts. rewrite H. reflexivity.
Qed.

Lemma posts_get_root_listing (c : Sqlite.Database) (u : JS.jsstring) :
  u <> [] ->
  Sqlite.fault c Sqlite.SelectPosts = None ->
  PostsRouter.get_root c (Some u)
  = (Http.Sent 200
       (Http.JsonPosts (Specified.posts_of u (Sqlite.posts (Sqlite.tables c)))),
     c).
Proof.
  intros N H. unfold PostsRouter.get_root.
  apply is_empty_false in N. rewrite N, (getPosts_healthy c u H). reflexivity.
Qed.

(** C7, as amended.  GET /posts answers 400 when the userId parameter is
    absent or empty; otherwise, the storage answering, it answers 200 with
    exactly the posts whose user_id equals userId, in storage order: the
    empty array when there is none, whatever the users table holds, so a
    user without posts and a user that does not exist look the same. *)
Theorem posts_get_root_responses
  (c : Sqlite.Database) (userId : option JS.jsstring) :
  (userId = None \/ userId = Some [] ->
   PostsRouter.get_root c userId
   = (Http.Sent 400 (Http.JsonError "userId is required"), c)) /\
  (forall u, userId = Some u -> u <> [] ->
   Sqlite.fault c Sqlite.SelectPosts = None ->
   exists listed,
     PostsRouter.get_root c userId = (Http.Sent 200 (Http.JsonPosts listed), c) /\
     listed = Specified.posts_of u (Sqlite.posts (Sqlite.tables c)) /\
     (forall p, In p listed <->
                In p (Sqlite.posts (Sqlite.tables c)) /\ PostTypes.user_id p = u) /\
     ((forall p, In p (Sqlite.posts (Sqlite.tables c)) ->
                 PostTypes.user_id p <> u) ->
      listed = []) /\
     (forall directory,
        fst (PostsRouter.get_root
               (Sqlite.mkDatabase
                  (Sqlite.mkTables directory (Sqlite.posts (Sqlite.tables c)))
                  (Sqlite.fault c))
               userId)
        = Http.Sent 200 (Http.JsonPosts listed))).
Proof.
  split.
  - intros [-> | ->]; reflexivity.
  - intros u -> N H.
    exists (Specified.posts_of u (Sqlite.posts (Sqlite.tables c))).
    split; [apply posts_get_root_listing; assumption|].
    split; [reflexivity|]. split; [|split].
    + intros p. apply in_posts_of.
    + apply posts_of_none.
    + intros directory. rewrite posts_get_root_listing; auto.
Qed.

Lemma posts_get_root_responses_witness :
  PostsRouter.get_root Sample.db None
  = (Http.Sent 400 (Http.JsonError "userId is required"), Sample.db) /\
  exists listed,
    PostsRouter.get_root Sample.db (Some (JS.js "u1"))
    = (Http.Sent 200 (Http.JsonPosts listed), Sample.db) /\
    listed = Specified.posts_of (JS.js "u1") (Sqlite.posts (Sqlite.tables Sample.db)) /\
    (forall p, In p listed <->
               In p (Sqlite.posts (Sqlite.tables Sample.db)) /\
               PostTypes.user_id p = JS.js "u1") /\
    ((forall p, In p (Sqlite.posts (Sqlite.tables Sample.db)) ->
                PostTypes.user_id p <> JS.js "u1") ->
     listed = []) /\
    (forall directory,
       fst (PostsRouter.get_root
              (Sqlite.mkDatabase
                 (Sqlite.mkTables directory (Sqlite.posts (Sqlite.tables Sample.db)))
                 (Sqlite.fault Sample.db))
              (Some (JS.js "u1")))
       = Http.Sent 200 (Http.JsonPosts listed)).
Proof.
  split.
  - apply (posts_get_root_responses Sample.db None). left; reflexivity.
  - apply (posts_get_root_responses Sample.db (Some (JS.js "u1")))
      with (u := JS.js "u1"); [reflexivity | discriminate | reflexivity].
Defined.

(** C7 as worded fails on a userId that is present but empty
    ([GET /posts?userId=]): the parameter is not absent, yet the answer is
    400 and not 200 with the (empty) list of posts of that user. *)
Lemma posts_get_root_empty_userId :
  PostsRouter.get_root Sample.db (Some [])
  = (Http.Sent 400 (Http.JsonError "userId is required"), Sample.db) /\
  PostsRouter.get_root Sample.db (Some [])
  <> (Http.Sent 200
        (Http.JsonPosts
           (Specified.posts_of [] (Sqlite.posts (Sqlite.tables Sample.db)))),
      Sample.db).
Proof.
  split; [reflexivity | discriminate].
Qed.

Lemma createPost_resolved (env : Posts.Env) (c : Sqlite.Database)
  (userId title body : JS.jsstring) created c' newPost :
  Posts.createPost env c userId title body = (created, c') ->
  JS.state created = Some (JS.Resolved newPost) ->
  Posts.randomUUID env = JS.Normal (PostTypes.id newPost) /\
  newPost = PostTypes.mkPost (PostTypes.id newPost) userId title body
              (Posts.toISOString env) /\
  Sqlite.posts (Sqlite.tables c') = Sqlite.posts (Sqlite.tables c) ++ [newPost] /\
  Sqlite.fault c' = Sqlite.fault c.
Proof.
  unfold Posts.createPost, Sqlite.run_insert_post.
  destruct (Posts.randomUUID env) as [id|e];
    [|intros E; inversion E; subst; discriminate].
  destruct (Sqlite.fault c Sqlite.InsertPost);
    [intros E; inversion E; subst; discriminate|].
  destruct (existsb _ _);
    [intros E; inversion E; subst; discriminate|].
  simpl. intros E S. inversion E; subst; clear E.
  simpl in S. inversion S; subst; clear S. simpl.
  repeat split; reflexivity.
Qed.

Lemma post_root_created (env : Posts.Env) (c : Sqlite.Database)
  (T B U : JS.jsstring) newPost c' :
  PostsRouter.post_root env c (JS.VString T) (JS.VString B) (JS.VString U)
  = (Http.Sent 201 (Http.JsonPost newPost), c') ->
  JS.trim U <> [] /\
  exists created,
    Posts.createPost env c (JS.trim U) (JS.trim T) (JS.trim B) = (created, c') /\
    JS.state created = Some (JS.Resolved newPost).
Proof.
  unfold PostsRouter.post_root, PostsRouter.internal_server_error, JS.await.
  simpl.
  destruct (JS.is_empty T); simpl; [discriminate|].
  destruct (JS.is_empty B); simpl; [discriminate|].
  destruct (JS.is_empty U); simpl; [discriminate|].
  destruct (JS.is_empty (JS.trim T)); [discriminate|].
  destruct (JS.is_empty (JS.trim B)); [discriminate|].
  destruct (JS.is_empty (JS.trim U)) eqn:EU; [discriminate|].
  destruct (JS.state (Users.userExists c (JS.trim U))) as [[[|]|e]|];
    simpl; try discriminate.
  destruct (Posts.createPost env c (JS.trim U) (JS.trim T) (JS.trim B))
    as [created c''] eqn:E.
  destruct (JS.state created) as [[p|e]|] eqn:S; try discriminate.
  intros H. inversion H; subst.
  split; [apply is_empty_false; assumption|].
  exists created; split; [reflexivity | assumption].
Qed.

(** C8, as amended.  For every existing user U whose id has no surrounding
    white space and every non-empty trimmed title T and body B, a post created
    by POST /posts with [{title: T, body: B, userId: U}] is contained in the
    answer of a GET /posts?userId=U that follows (the storage answering); the
    created post carries the generated id and the creation timestamp, and T,
    B and U as given. *)
Theorem created_post_is_listed (env : Posts.Env) (c : Sqlite.Database)
  (T B U : JS.jsstring) (newPost : PostTypes.Post) (c' : Sqlite.Database) :
  JS.state (Users.userExists c U) = Some (JS.Resolved true) ->
  JS.trim U = U ->
  JS.trim T = T -> T <> [] ->
  JS.trim B = B -> B <> [] ->
  PostsRouter.post_root env c (JS.VString T) (JS.VString B) (JS.VString U)
  = (Http.Sent 201 (Http.JsonPost newPost), c') ->
  Sqlite.fault c' Sqlite.SelectPosts = None ->
  (exists listed,
     PostsRouter.get_root c' (Some U)
     = (Http.Sent 200 (Http.JsonPosts listed), c') /\
     In newPost listed) /\
  Posts.randomUUID env = JS.Normal (PostTypes.id newPost) /\
  PostTypes.created_at newPost = Posts.toISOString env /\
  PostTypes.user_id newPost = U /\
  PostTypes.title newPost = T /\
  PostTypes.body newPost = B.
Proof.
  intros _ EU ET NT EB NB Created Healthy.
  apply post_root_created in Created.
  destruct Created as [NU [created [C S]]].
  rewrite EU, ET, EB in C. rewrite EU in NU.
  destruct (createPost_resolved env c U T B created c' newPost C S)
    as [Id [Shape [Stored _]]].
  split.
  - exists (Specified.posts_of U (Sqlite.posts (Sqlite.tables c'))).
    split; [apply posts_get_root_listing; assumption|].
    apply in_posts_of. split.
    + rewrite Stored. apply in_or_app. right; left; reflexivity.
    + rewrite Shape; reflexivity.
  - split; [exact Id|]. rewrite Shape; simpl. repeat split; reflexivity.
Qed.

Lemma created_post_is_listed_witness :
  (exists listed,
     PostsRouter.get_root
       (snd (Posts.createPost Sample.env Sample.db
               (JS.js "u1") (JS.js "Hi") (JS.js "World")))
       (Some (JS.js "u1"))
     = (Http.Sent 200 (Http.JsonPosts listed),
        snd (Posts.createPost Sample.env Sample.db
               (JS.js "u1") (JS.js "Hi") (JS.js "World"))) /\
     In (PostTypes.mkPost (JS.js "3b241101-e2bb-4255-8caf-4136c566a962")
           (JS.js "u1") (JS.js "Hi") (JS.js "World")
           (JS.js "2025-03-04T05:06:07.000Z"))
        listed) /\
  Posts.randomUUID Sample.env
  = JS.Normal (JS.js "3b241101-e2bb-4255-8caf-4136c566a962") /\
  JS.js "2025-03-04T05:06:07.000Z" = Posts.toISOString Sample.env /\
  JS.js "u1" = JS.js "u1" /\
  JS.js "Hi" = JS.js "Hi" /\
  JS.js "World" = JS.js "World".
Proof.
  apply (created_post_is_listed Sample.env Sample.db
           (JS.js "Hi") (JS.js "World") (JS.js "u1")
           (PostTypes.mkPost (JS.js "3b241101-e2bb-4255-8caf-4136c566a962")
              (JS.js "u1") (JS.js "Hi") (JS.js "World")
              (JS.js "2025-03-04T05:06:07.000Z"))
           (snd (Posts.createPost Sample.env Sample.db
                   (JS.js "u1") (JS.js "Hi") (JS.js "World"))));
    try reflexivity; discriminate.
Defined.

(** C8 as worded fails when the id of an existing user carries surrounding
    white space and its trimmed form is the id of another user: the post
    is created for the trimmed id, and the list of the id as given does not
    contain it. *)
Lemma created_post_not_listed_for_padded_id :
  JS.state (Users.userExists Sample.padded_db (JS.js " u1 "))
  = Some (JS.Resolved true) /\
  PostsRouter.post_root Sample.env Sample.padded_db
    (JS.VString (JS.js "Hi")) (JS.VString (JS.js "World"))
    (JS.VString (JS.js " u1 "))
  = (Http.Sent 201
       (Http.JsonPost
          (PostTypes.mkPost (JS.js "3b241101-e2bb-4255-8caf-4136c566a962")
             (JS.js "u1") (JS.js "Hi") (JS.js "World")
             (JS.js "2025-03-04T05:06:07.000Z"))),
     snd (Posts.createPost Sample.env Sample.padded_db
            (JS.js "u1") (JS.js "Hi") (JS.js "World"))) /\
  PostsRouter.get_root
    (snd (Posts.createPost Sample.env Sample.padded_db
            (JS.js "u1") (JS.js "Hi") (JS.js "World")))
    (Some (JS.js " u1 "))
  = (Http.Sent 200 (Http.JsonPosts []),
     snd (Posts.createPost Sample.env Sample.padded_db
            (JS.js "u1") (JS.js "Hi") (JS.js "World"))) /\
  ~ (exists listed,
       PostsRouter.get_root
         (snd (Posts.createPost Sample.env Sample.padded_db
                 (JS.js "u1") (JS.js "Hi") (JS.js "World")))
         (Some (JS.js " u1 "))
       = (Http.Sent 200 (Http.JsonPosts listed),
          snd (Posts.createPost Sample.env Sample.padded_db
                 (JS.js "u1") (JS.js "Hi") (JS.js "World"))) /\
       In (PostTypes.mkPost (JS.js "3b241101-e2bb-4255-8caf-4136c566a962")
             (JS.js "u1") (JS.js "Hi") (JS.js "World")
             (JS.js "2025-03-04T05:06:07.000Z"))
          listed).
Proof.
  split; [reflexivity|]. split; [reflexivity|]. split; [reflexivity|].
  intros [listed [H I]]. inversion H; subst. exact I.
Qed.

(** ** Pagination parameters *)

Lemma or_default_falsy (p : JS.param) (d : Z) :
  p = JS.Absent \/ (exists text, p = JS.NotNumeric text) \/ p = JS.Numeric 0 ->
  JS.or_default (JS.to_number p) d = d.
Proof.
  intros [-> | [[text ->] | ->]]; reflexivity.
Qed.

Lemma users_get_root_default_page_size
  (c : Sqlite.Database) (q_pageNumber q_pageSize : JS.param) :
  q_pageSize = JS.Absent \/ (exists text, q_pageSize = JS.NotNumeric text)
  \/ q_pageSize = JS.Numeric 0 ->
  UsersRouter.get_root c q_pageNumber q_pageSize
  = UsersRouter.get_root c q_pageNumber (JS.Numeric 4).
Proof.
  intros H. unfold UsersRouter.get_root.
  rewrite (or_default_falsy q_pageSize 4 H). reflexivity.
Qed.

Lemma users_get_root_rejects_negative
  (c : Sqlite.Database) (q_pageNumber : JS.param) (pageSize : Z) :
  pageSize < 0 ->
  UsersRouter.get_root c q_pageNumber (JS.Numeric pageSize)
  = (Http.Sent 400 (Http.JsonMessage "Invalid page number or page size"), c).
Proof.
  intros H. unfold UsersRouter.get_root; simpl.
  destruct (Z.eqb_spec pageSize 0); [lia|].
  destruct (Z.ltb_spec pageSize 1); [|lia].
  rewrite orb_true_r. reflexivity.
Qed.

(** C2, on the code.  GET /users with pageSize=0 is not answered 400: the
    handler takes 0 for a missing value, replaces it by the default 4 before
    it validates, and answers as it does for pageSize=4; on the sample
    directory of five users that is 200 with the first four users. *)
Theorem users_get_root_page_size_zero :
  (forall c q_pageNumber,
     UsersRouter.get_root c q_pageNumber (JS.Numeric 0)
     = UsersRouter.get_root c q_pageNumber (JS.Numeric 4)) /\
  UsersRouter.get_root Sample.db JS.Absent (JS.Numeric 0)
  = (Http.Sent 200
       (Http.JsonUsers
          (List.map Users.formatAddress
             [Sample.ada; Sample.bob; Sample.cyd; Sample.dee])),
     Sample.db).
Proof.
  split; [|reflexivity].
  intros c q. apply users_get_root_default_page_size. right; right; reflexivity.
Qed.

(** ** Storage faults *)

(** C9, on the code.  On a connection whose every statement fails with a
    storage fault [e], the two handlers with a [try]/[catch] (POST /posts,
    DELETE /posts/:id) answer 500 "Internal server error"; the three without
    one (GET /users, GET /users/count, GET /posts) send no response at
    all: their promise rejects with the storage error itself, and the
    callbacks of [getUsers] and [getUsersCount] throw a TypeError on top. *)
Theorem storage_fault_responses
  (t : Sqlite.Tables) (e : JS.Error) (env : Posts.Env) :
  let c := Sqlite.mkDatabase t (fun _ => Some e) in
  UsersRouter.get_root c JS.Absent JS.Absent = (Http.Unhandled e, c) /\
  UsersRouter.get_count c = (Http.Unhandled e, c) /\
  PostsRouter.get_root c (Some (JS.js "u1")) = (Http.Unhandled e, c) /\
  PostsRouter.post_root env c
    (JS.VString (JS.js "Hi")) (JS.VString (JS.js "World")) (JS.VString (JS.js "u1"))
  = (Http.Sent 500 (Http.JsonError "Internal server error"), c) /\
  PostsRouter.delete_id c (JS.VString (JS.js "p1"))
  = (Http.Sent 500 (Http.JsonError "Internal server error"), c) /\
  JS.uncaught (Users.getUsers c 0 4) = Some JS.TypeError_undefined /\
  JS.uncaught (Users.getUsersCount c) = Some JS.TypeError_undefined.
Proof.
  intros c. repeat split.
Qed.

(* ================================================================== *)
(** * Further properties of the repositories and routers *)

Lemma filter_exists {A : Type} (f : A -> bool) (l : list A) :
  (0 < List.length (filter f l))%nat <-> exists x, In x l /\ f x = true.
Proof.
  induction l as [|a l IH]; simpl.
  - split; [lia | intros [x [[] _]]].
  - destruct (f a) eqn:E; simpl.
    + split; [intros _; exists a; auto | lia].
    + rewrite IH. split; intros [x [Hin Hx]].
      * exists x; auto.
      * destruct Hin as [<- | Hin]; [congruence | exists x; auto].
Qed.

Lemma filter_same_length {A : Type} (f : A -> bool) (l : list A) :
  List.length (filter f l) = List.length l -> filter f l = l.
Proof.
  induction l as [|a l IH]; simpl; [reflexivity|].
  destruct (f a); simpl; intros H.
  - f_equal. apply IH. lia.
  - pose proof (filter_length_le f l). lia.
Qed.

Lemma with_posts_same (c : Sqlite.Database) :
  Sqlite.with_posts c (Sqlite.posts (Sqlite.tables c)) = c.
Proof. destruct c as [[us ps] f]; reflexivity. Qed.

Lemma userExists_healthy (c : Sqlite.Database) (userId : JS.jsstring) :
  Sqlite.fault c Sqlite.SelectUserCountById = None ->
  Users.userExists c userId =
  JS.mkPromise
    (Some (JS.Resolved
       (0 <? Z.of_nat
          (List.length
             (filter (fun u => JS.eqb (UserTypes.id u) userId)
                     (Sqlite.users (Sqlite.tables c)))))))
    None.
Proof.
  intros H. unfold Users.userExists, Sqlite.get_user_count_by_id.
  rewrite H. reflexivity.
Qed.

Lemma userExists_true (c : Sqlite.Database) (userId : JS.jsstring) :
  JS.state (Users.userExists c userId) = Some (JS.Resolved true) ->
  exists u, In u (Sqlite.users (Sqlite.tables c)) /\ UserTypes.id u = userId.
Proof.
  unfold Users.userExists, Sqlite.get_user_count_by_id.
  destruct (Sqlite.fault c Sqlite.SelectUserCountById); simpl; [discriminate|].
  intros H. inversion H as [E]. apply Z.ltb_lt in E.
  destruct (proj1 (filter_exists
    (fun u => JS.eqb (UserTypes.id u) userId)
    (Sqlite.users (Sqlite.tables c)))) as [u [Hin Hu]]; [lia|].
  exists u; split; [assumption | apply eqb_eq; assumption].
Qed.

(** X1. [userExists(userId)] resolves to true exactly when the users table
    holds a row with that id and to false otherwise: an unknown id never
    makes it reject.  When the storage reports a fault it rejects with the
    fixed message "Failed to verify user existence", whatever the fault
    was. *)
Theorem userExists_iff_row (c : Sqlite.Database) (userId : JS.jsstring) :
  (Sqlite.fault c Sqlite.SelectUserCountById = None ->
   exists found,
     Users.userExists c userId = JS.mkPromise (Some (JS.Resolved found)) None /\
     (found = true <->
      exists u, In u (Sqlite.users (Sqlite.tables c)) /\ UserTypes.id u = userId)) /\
  (forall e,
     Sqlite.fault c Sqlite.SelectUserCountById = Some e ->
     Users.userExists c userId =
     JS.mkPromise
       (Some (JS.Rejected (JS.Err "Failed to verify user existence"))) None).
Proof.
  split.
  - intros H. rewrite (userExists_healthy c userId H).
    eexists; split; [reflexivity|].
    rewrite Z.ltb_lt.
    pose proof (filter_exists (fun u => JS.eqb (UserTypes.id u) userId)
                  (Sqlite.users (Sqlite.tables c))) as F.
    split.
    + intros L. destruct (proj1 F) as [u [Hin Hu]]; [lia|].
      exists u; split; [assumption | apply eqb_eq; assumption].
    + intros [u [Hin Hu]].
      assert (0 < List.length
                (filter (fun u => JS.eqb (UserTypes.id u) userId)
                        (Sqlite.users (Sqlite.tables c))))%nat; [|lia].
      apply F. exists u; split; [assumption | apply eqb_eq; assumption].
  - intros e H. unfold Users.userExists, Sqlite.get_user_count_by_id.
    rewrite H. reflexivity.
Qed.

Lemma userExists_iff_row_witness :
  (exists found,
     Users.userExists Sample.db (JS.js "u3")
     = JS.mkPromise (Some (JS.Resolved found)) None /\
     (found = true <->
      exists u, In u (Sqlite.users (Sqlite.tables Sample.db)) /\
                UserTypes.id u = JS.js "u3")) /\
  Users.userExists Sample.broken_db (JS.js "u3") =
  JS.mkPromise
    (Some (JS.Rejected (JS.Err "Failed to verify user existence"))) None.
Proof.
  split.
  - apply (userExists_iff_row Sample.db (JS.js "u3")). reflexivity.
  - apply (proj2 (userExists_iff_row Sample.broken_db (JS.js "u3")))
      with (e := Sample.disk_error).
    reflexivity.
Defined.

(** ** Creating a post *)

Lemma createPost_settles (env : Posts.Env) (c : Sqlite.Database)
  (userId title body : JS.jsstring) :
  (exists newPost,
     JS.state (fst (Posts.createPost env c userId title body))
     = Some (JS.Resolved newPost)) \/
  (exists e,
     JS.state (fst (Posts.createPost env c userId title body))
     = Some (JS.Rejected e) /\
     snd (Posts.createPost env c userId title body) = c /\
     (e = JS.Err "Failed to create post" \/
      e = JS.Err "Failed to save post to database" \/
      e = JS.Err "Post was not created")).
Proof.
  unfold Posts.createPost, Sqlite.run_insert_post.
  destruct (Posts.randomUUID env) as [id|e]; simpl.
  - destruct (Sqlite.fault c Sqlite.InsertPost); simpl.
    + right; eexists; repeat split; auto.
    + destruct (existsb _ _); simpl.
      * right; eexists; repeat split; auto.
      * left; eexists; reflexivity.
  - right; eexists; repeat split; auto.
Qed.

(** X2. [createPost] always settles.  When it rejects, nothing has been
    stored and the error is one of its three fixed messages, never the
    storage's own error.  When it resolves, exactly the returned post, made
    of the generated id, the arguments and the timestamp, has been appended
    to the posts table.  It never looks at the users table: the outcome and
    the posts stored are the same whatever users exist. *)
Theorem createPost_outcomes (env : Posts.Env) (c : Sqlite.Database)
  (userId title body : JS.jsstring) :
  ((exists newPost,
      JS.state (fst (Posts.createPost env c userId title body))
      = Some (JS.Resolved newPost)) \/
   (exists e,
      JS.state (fst (Posts.createPost env c userId title body))
      = Some (JS.Rejected e))) /\
  (forall e,
     JS.state (fst (Posts.createPost env c userId title body))
     = Some (JS.Rejected e) ->
     snd (Posts.createPost env c userId title body) = c /\
     (e = JS.Err "Failed to create post" \/
      e = JS.Err "Failed to save post to database" \/
      e = JS.Err "Post was not created")) /\
  (forall newPost,
     JS.state (fst (Posts.createPost env c userId title body))
     = Some (JS.Resolved newPost) ->
     Posts.randomUUID env = JS.Normal (PostTypes.id newPost) /\
     newPost = PostTypes.mkPost (PostTypes.id newPost) userId title body
                 (Posts.toISOString env) /\
     Sqlite.posts (Sqlite.tables (snd (Posts.createPost env c userId title body)))
     = Sqlite.posts (Sqlite.tables c) ++ [newPost]) /\
  (forall directory,
     fst (Posts.createPost env (Further.with_users c directory) userId title body)
     = fst (Posts.createPost env c userId title body) /\
     Sqlite.posts (Sqlite.tables
       (snd (Posts.createPost env (Further.with_users c directory)
               userId title body)))
     = Sqlite.posts (Sqlite.tables
         (snd (Posts.createPost env c userId title body)))).
Proof.
  pose proof (createPost_settles env c userId title body) as S.
  split; [|split; [|split]].
  - destruct S as [[p Hp] | [e [He _]]]; [left; exists p | right; exists e];
      assumption.
  - intros e He. destruct S as [[p Hp] | [e' [He' [Hc Hm]]]]; [congruence|].
    rewrite He in He'. inversion He'; subst. split; assumption.
  - intros newPost Hp.
    destruct (Posts.createPost env c userId title body) as [created c'] eqn:E.
    destruct (createPost_resolved env c userId title body created c' newPost E Hp)
      as [Id [Shape [Stored _]]].
    repeat split; assumption.
  - intros directory. unfold Posts.createPost, Sqlite.run_insert_post; simpl.
    destruct (Posts.randomUUID env); simpl; [|split; reflexivity].
    destruct (Sqlite.fault c Sqlite.InsertPost); simpl; [split; reflexivity|].
    destruct (existsb _ _); simpl; split; reflexivity.
Qed.

Lemma createPost_outcomes_witness :
  (Posts.randomUUID Sample.env
   = JS.Normal (JS.js "3b241101-e2bb-4255-8caf-4136c566a962") /\
   PostTypes.mkPost (JS.js "3b241101-e2bb-4255-8caf-4136c566a962")
     (JS.js "nobody") (JS.js "Hi") (JS.js "World") (JS.js "2025-03-04T05:06:07.000Z")
   = PostTypes.mkPost (JS.js "3b241101-e2bb-4255-8caf-4136c566a962")
       (JS.js "nobody") (JS.js "Hi") (JS.js "World") (Posts.toISOString Sample.env) /\
   Sqlite.posts (Sqlite.tables
     (snd (Posts.createPost Sample.env Sample.db
             (JS.js "nobody") (JS.js "Hi") (JS.js "World"))))
   = Sqlite.posts (Sqlite.tables Sample.db)
     ++ [PostTypes.mkPost (JS.js "3b241101-e2bb-4255-8caf-4136c566a962")
           (JS.js "nobody") (JS.js "Hi") (JS.js "World")
           (JS.js "2025-03-04T05:06:07.000Z")]) /\
  (snd (Posts.createPost Sample.env Sample.readonly_db
          (JS.js "u1") (JS.js "Hi") (JS.js "World")) = Sample.readonly_db /\
   (JS.Err "Failed to save post to database" = JS.Err "Failed to create post" \/
    JS.Err "Failed to save post to database"
    = JS.Err "Failed to save post to database" \/
    JS.Err "Failed to save post to database" = JS.Err "Post was not created")).
Proof.
  split.
  - apply (proj1 (proj2 (proj2 (createPost_outcomes Sample.env Sample.db
             (JS.js "nobody") (JS.js "Hi") (JS.js "World"))))
             (PostTypes.mkPost (JS.js "3b241101-e2bb-4255-8caf-4136c566a962")
                (JS.js "nobody") (JS.js "Hi") (JS.js "World")
                (JS.js "2025-03-04T05:06:07.000Z"))).
    reflexivity.
  - apply (proj1 (proj2 (createPost_outcomes Sample.env Sample.readonly_db
             (JS.js "u1") (JS.js "Hi") (JS.js "World")))
             (JS.Err "Failed to save post to database")).
    reflexivity.
Defined.

Lemma guard_passed (v : JS.value) :
  negb (JS.truthy v) || negb (JS.typeof_string v) = false ->
  exists s, v = JS.VString s.
Proof.
  destruct v as [| |b|n|s|]; simpl; try discriminate;
    try (rewrite orb_true_r; discriminate).
  intros _; exists s; reflexivity.
Qed.

Lemma post_root_cases (env : Posts.Env) (c : Sqlite.Database)
  (title body userId : JS.value) :
  (snd (PostsRouter.post_root env c title body userId) = c /\
   forall p, fst (PostsRouter.post_root env c title body userId)
             <> Http.Sent 201 (Http.JsonPost p)) \/
  (exists t b u newPost,
     title = JS.VString t /\ body = JS.VString b /\ userId = JS.VString u /\
     JS.trim t <> [] /\ JS.trim b <> [] /\ JS.trim u <> [] /\
     JS.state (Users.userExists c (JS.trim u)) = Some (JS.Resolved true) /\
     JS.state (fst (Posts.createPost env c (JS.trim u) (JS.trim t) (JS.trim b)))
     = Some (JS.Resolved newPost) /\
     PostsRouter.post_root env c title body userId
     = (Http.Sent 201 (Http.JsonPost newPost),
        snd (Posts.createPost env c (JS.trim u) (JS.trim t) (JS.trim b)))).
Proof.
  assert (Stay : forall r : Http.result,
            (forall p, r <> Http.Sent 201 (Http.JsonPost p)) ->
            (snd (r, c) = c /\
             forall p, fst (r, c) <> Http.Sent 201 (Http.JsonPost p)))
    by (intros r H; split; [reflexivity | exact H]).
  unfold PostsRouter.post_root, PostsRouter.internal_server_error, JS.await.
  destruct (negb (JS.truthy title) || negb (JS.typeof_string title)) eqn:Gt;
    [left; apply Stay; intros p; discriminate|].
  destruct (negb (JS.truthy body) || negb (JS.typeof_string body)) eqn:Gb;
    [left; apply Stay; intros p; discriminate|].
  destruct (negb (JS.truthy userId) || negb (JS.typeof_string userId)) eqn:Gu;
    [left; apply Stay; intros p; discriminate|].
  apply guard_passed in Gt, Gb, Gu.
  destruct Gt as [t ->], Gb as [b ->], Gu as [u ->]. simpl.
  destruct (JS.is_empty (JS.trim t)) eqn:Ett;
    [left; apply Stay; intros p; discriminate|].
  destruct (JS.is_empty (JS.trim b)) eqn:Ebb;
    [left; apply Stay; intros p; discriminate|].
  destruct (JS.is_empty (JS.trim u)) eqn:Euu;
    [left; apply Stay; intros p; discriminate|].
  destruct (JS.state (Users.userExists c (JS.trim u))) as [[[|]|e]|] eqn:Ex;
    try (left; apply Stay; intros p; discriminate).
  pose proof (createPost_settles env c (JS.trim u) (JS.trim t) (JS.trim b)) as S.
  destruct (Posts.createPost env c (JS.trim u) (JS.trim t) (JS.trim b))
    as [created c'] eqn:E.
  simpl in S. destruct S as [[p Hp] | [e [He [Hc _]]]].
  - right. exists t, b, u, p. simpl. rewrite Hp.
    split; [reflexivity|]. split; [reflexivity|]. split; [reflexivity|].
    split; [apply is_empty_false; assumption|].
    split; [apply is_empty_false; assumption|].
    split; [apply is_empty_false; assumption|].
    split; [exact Ex|]. rewrite E; simpl. split; [exact Hp | reflexivity].
  - left. rewrite He. subst c'. split; [reflexivity | intros p; discriminate].
Qed.

(** X3. POST /posts writes to the storage only when it answers 201: with
    any other answer (400, 404, 500) the storage is exactly as before, and
    with 201 the posts table has grown by the returned post, at its end, and
    nothing else has changed. *)
Theorem post_root_writes_only_on_201 (env : Posts.Env) (c : Sqlite.Database)
  (title body userId : JS.value) :
  ((forall p, fst (PostsRouter.post_root env c title body userId)
              <> Http.Sent 201 (Http.JsonPost p)) ->
   snd (PostsRouter.post_root env c title body userId) = c) /\
  (forall newPost,
     fst (PostsRouter.post_root env c title body userId)
     = Http.Sent 201 (Http.JsonPost newPost) ->
     Sqlite.posts (Sqlite.tables (snd (PostsRouter.post_root env c title body userId)))
     = Sqlite.posts (Sqlite.tables c) ++ [newPost] /\
     Sqlite.users (Sqlite.tables (snd (PostsRouter.post_root env c title body userId)))
     = Sqlite.users (Sqlite.tables c) /\
     Sqlite.fault (snd (PostsRouter.post_root env c title body userId))
     = Sqlite.fault c).
Proof.
  destruct (post_root_cases env c title body userId)
    as [[Same Not] | [t [b [u [p [_ [_ [_ [_ [_ [_ [_ [Hp R]]]]]]]]]]]]].
  - split; [intros _; exact Same|].
    intros newPost H. exfalso. exact (Not newPost H).
  - rewrite R; simpl. split.
    + intros H. exfalso. exact (H p eq_refl).
    + intros newPost H. inversion H; subst newPost.
      destruct (Posts.createPost env c (JS.trim u) (JS.trim t) (JS.trim b))
        as [created c'] eqn:E.
      destruct (createPost_resolved env c _ _ _ created c' p E Hp)
        as [_ [_ [Stored Faults]]].
      pose proof (createPost_users env c (JS.trim u) (JS.trim t) (JS.trim b)) as U.
      rewrite E in U. simpl in *. repeat split; assumption.
Qed.

Lemma post_root_writes_only_on_201_witness :
  snd (PostsRouter.post_root Sample.env Sample.db
         (JS.VString (JS.js "Hi")) (JS.VString (JS.js "World"))
         (JS.VString (JS.js "u9")))
  = Sample.db /\
  Sqlite.posts (Sqlite.tables
    (snd (PostsRouter.post_root Sample.env Sample.db
            (JS.VString (JS.js " Hi ")) (JS.VString (JS.js "World"))
            (JS.VString (JS.js "u2")))))
  = Sqlite.posts (Sqlite.tables Sample.db)
    ++ [PostTypes.mkPost (JS.js "3b241101-e2bb-4255-8caf-4136c566a962")
          (JS.js "u2") (JS.js "Hi") (JS.js "World")
          (JS.js "2025-03-04T05:06:07.000Z")].
Proof.
  split.
  - apply (proj1 (post_root_writes_only_on_201 Sample.env Sample.db
             (JS.VString (JS.js "Hi")) (JS.VString (JS.js "World"))
             (JS.VString (JS.js "u9")))).
    intros p; discriminate.
  - apply (proj2 (post_root_writes_only_on_201 Sample.env Sample.db
             (JS.VString (JS.js " Hi ")) (JS.VString (JS.js "World"))
             (JS.VString (JS.js "u2")))
             (PostTypes.mkPost (JS.js "3b241101-e2bb-4255-8caf-4136c566a962")
                (JS.js "u2") (JS.js "Hi") (JS.js "World")
                (JS.js "2025-03-04T05:06:07.000Z"))).
    reflexivity.
Defined.

(** X5. A post that POST /posts answers with 201 holds the trimmed forms
    of the title, body and userId of the request: none of the three is empty
    and none has white space at either end, however padded the request
    was. *)
Theorem created_posts_are_trimmed (env : Posts.Env) (c : Sqlite.Database)
  (title body userId : JS.value) (newPost : PostTypes.Post) :
  fst (PostsRouter.post_root env c title body userId)
  = Http.Sent 201 (Http.JsonPost newPost) ->
  exists t b u,
    title = JS.VString t /\ body = JS.VString b /\ userId = JS.VString u /\
    PostTypes.title newPost = JS.trim t /\
    PostTypes.body newPost = JS.trim b /\
    PostTypes.user_id newPost = JS.trim u /\
    PostTypes.title newPost <> [] /\
    PostTypes.body newPost <> [] /\
    PostTypes.user_id newPost <> [] /\
    Specified.clean_ends (PostTypes.title newPost) /\
    Specified.clean_ends (PostTypes.body newPost) /\
    Specified.clean_ends (PostTypes.user_id newPost).
Proof.
  intros H.
  destruct (post_root_cases env c title body userId)
    as [[_ Not] | [t [b [u [p [-> [-> [-> [Nt [Nb [Nu [_ [Hp R]]]]]]]]]]]]].
  - exfalso. exact (Not newPost H).
  - rewrite R in H; simpl in H. inversion H; subst p.
    destruct (Posts.createPost env c (JS.trim u) (JS.trim t) (JS.trim b))
      as [created c'] eqn:E.
    destruct (createPost_resolved env c _ _ _ created c' newPost E Hp)
      as [_ [Shape _]].
    exists t, b, u. rewrite Shape; simpl.
    repeat (split; [first [reflexivity | assumption | apply trim_spec]|]).
    apply trim_spec.
Qed.

Lemma created_posts_are_trimmed_witness :
  exists t b u,
    JS.VString (JS.js "  Hi ") = JS.VString t /\
    JS.VString (JS.js "World  ") = JS.VString b /\
    JS.VString (JS.js " u2") = JS.VString u /\
    JS.js "Hi" = JS.trim t /\
    JS.js "World" = JS.trim b /\
    JS.js "u2" = JS.trim u /\
    JS.js "Hi" <> [] /\
    JS.js "World" <> [] /\
    JS.js "u2" <> [] /\
    Specified.clean_ends (JS.js "Hi") /\
    Specified.clean_ends (JS.js "World") /\
    Specified.clean_ends (JS.js "u2").
Proof.
  apply (created_posts_are_trimmed Sample.env Sample.db
           (JS.VString (JS.js "  Hi ")) (JS.VString (JS.js "World  "))
           (JS.VString (JS.js " u2"))
           (PostTypes.mkPost (JS.js "3b241101-e2bb-4255-8caf-4136c566a962")
              (JS.js "u2") (JS.js "Hi") (JS.js "World")
              (JS.js "2025-03-04T05:06:07.000Z"))).
  reflexivity.
Defined.

(** ** Deleting a post *)

Lemma delete_id_cases (c : Sqlite.Database) (id : JS.value) :
  PostsRouter.delete_id c id
  = (Http.Sent 400 (Http.JsonError "Post ID is required"), c) \/
  exists s,
    id = JS.VString s /\ JS.trim s <> [] /\
    PostsRouter.delete_id c id
    = (match JS.state (fst (Posts.deletePost c (JS.trim s))) with
       | Some (JS.Resolved true) => Http.Sent 204 Http.NoBody
       | Some (JS.Resolved false) =>
           Http.Sent 404 (Http.JsonError "Post not found")
       | Some (JS.Rejected _) =>
           Http.Sent 500 (Http.JsonError "Internal server error")
       | None => Http.Stalled
       end,
       snd (Posts.deletePost c (JS.trim s))).
Proof.
  unfold PostsRouter.delete_id, PostsRouter.internal_server_error, JS.await.
  destruct (negb (JS.truthy id)) eqn:T; [left; reflexivity|].
  destruct (negb (JS.typeof_string id)) eqn:S; [left; reflexivity|].
  destruct id as [| |b|n|s|]; try discriminate. simpl.
  destruct (JS.is_empty (JS.trim s)) eqn:E; [left; reflexivity|].
  right. exists s. split; [reflexivity|].
  split; [apply is_empty_false; assumption|].
  destruct (Posts.deletePost c (JS.trim s)) as [deletion c']; simpl.
  destruct (JS.state deletion) as [[[|]|e]|]; reflexivity.
Qed.

Lemma deletePost_again (c : Sqlite.Database) (postId : JS.jsstring) :
  Sqlite.fault c Sqlite.DeletePost = None ->
  Posts.deletePost (snd (Posts.deletePost c postId)) postId
  = (JS.mkPromise (Some (JS.Resolved false)) None,
     snd (Posts.deletePost c postId)).
Proof.
  intros H. rewrite (deletePost_healthy c postId H); simpl.
  rewrite deletePost_healthy by exact H. simpl.
  rewrite other_posts_idempotent, Nat.sub_diag. reflexivity.
Qed.

Lemma delete_id_blank (c : Sqlite.Database) (id : JS.value) :
  (forall s, id = JS.VString s -> JS.trim s = []) ->
  PostsRouter.delete_id c id
  = (Http.Sent 400 (Http.JsonError "Post ID is required"), c).
Proof.
  intros B.
  destruct (delete_id_cases c id) as [R | [s [E [N _]]]]; [exact R|].
  exfalso. exact (N (B s E)).
Qed.

Lemma delete_id_nonblank (c : Sqlite.Database) (s : JS.jsstring) :
  JS.trim s <> [] ->
  PostsRouter.delete_id c (JS.VString s)
  = (match JS.state (fst (Posts.deletePost c (JS.trim s))) with
     | Some (JS.Resolved true) => Http.Sent 204 Http.NoBody
     | Some (JS.Resolved false) =>
         Http.Sent 404 (Http.JsonError "Post not found")
     | Some (JS.Rejected _) =>
         Http.Sent 500 (Http.JsonError "Internal server error")
     | None => Http.Stalled
     end,
     snd (Posts.deletePost c (JS.trim s))).
Proof.
  intros N.
  unfold PostsRouter.delete_id, PostsRouter.internal_server_error, JS.await.
  simpl.
  assert (Hs : JS.is_empty s = false).
  { apply is_empty_false. intros ->. apply N; reflexivity. }
  apply is_empty_false in N. rewrite Hs; simpl. rewrite N.
  destruct (Posts.deletePost c (JS.trim s)) as [deletion c']; simpl.
  destruct (JS.state deletion) as [[[|]|e]|]; reflexivity.
Qed.

(** X6. Deleting is idempotent on the server: on a working storage, a
    second DELETE /posts/:id of the same id leaves the storage as the first
    one left it.  For an id that is not blank the second answer is 404 "Post
    not found", the first one being 204 when a post with the trimmed id was
    stored; for a blank id (or one that is not a string) both answers are
    400 "Post ID is required" and the storage is untouched. *)
Theorem delete_id_twice (c : Sqlite.Database) (id : JS.value) :
  Sqlite.fault c Sqlite.DeletePost = None ->
  snd (PostsRouter.delete_id (snd (PostsRouter.delete_id c id)) id)
  = snd (PostsRouter.delete_id c id) /\
  (forall s, id = JS.VString s -> JS.trim s <> [] ->
     fst (PostsRouter.delete_id (snd (PostsRouter.delete_id c id)) id)
     = Http.Sent 404 (Http.JsonError "Post not found") /\
     ((exists row, In row (Sqlite.posts (Sqlite.tables c)) /\
                   PostTypes.id row = JS.trim s) ->
      fst (PostsRouter.delete_id c id) = Http.Sent 204 Http.NoBody)) /\
  ((forall s, id = JS.VString s -> JS.trim s = []) ->
   PostsRouter.delete_id c id
   = (Http.Sent 400 (Http.JsonError "Post ID is required"), c) /\
   PostsRouter.delete_id (snd (PostsRouter.delete_id c id)) id
   = (Http.Sent 400 (Http.JsonError "Post ID is required"), c)).
Proof.
  intros H.
  assert (Blank : (forall s, id = JS.VString s -> JS.trim s = []) ->
                  PostsRouter.delete_id c id
                  = (Http.Sent 400 (Http.JsonError "Post ID is required"), c) /\
                  PostsRouter.delete_id (snd (PostsRouter.delete_id c id)) id
                  = (Http.Sent 400 (Http.JsonError "Post ID is required"), c)).
  { intros B. rewrite (delete_id_blank c id B). cbn [snd].
    split; [reflexivity | apply delete_id_blank; exact B]. }
  assert (Full : forall s, id = JS.VString s -> JS.trim s <> [] ->
                 PostsRouter.delete_id (snd (PostsRouter.delete_id c id)) id
                 = (Http.Sent 404 (Http.JsonError "Post not found"),
                    snd (PostsRouter.delete_id c id))).
  { intros s -> N.
    rewrite (delete_id_nonblank c s N). cbn [snd].
    rewrite (delete_id_nonblank _ s N).
    rewrite (deletePost_again c (JS.trim s) H). reflexivity. }
  split; [|split].
  - destruct (delete_id_cases c id) as [R | [s [E [N _]]]].
    + rewrite R. cbn [snd]. rewrite R. reflexivity.
    + rewrite (Full s E N). reflexivity.
  - intros s E N. rewrite (Full s E N). split; [reflexivity|].
    intros Ex. subst id.
    rewrite (delete_id_nonblank c s N). cbn [fst].
    rewrite (deletePost_healthy c (JS.trim s) H). cbn [fst JS.state].
    apply other_posts_shorter in Ex.
    destruct (Z.ltb_spec 0 (Z.of_nat
      (List.length (Sqlite.posts (Sqlite.tables c)) -
       List.length (Specified.other_posts (JS.trim s)
                      (Sqlite.posts (Sqlite.tables c)))))); [reflexivity | lia].
  - exact Blank.
Qed.

Lemma delete_id_twice_witness :
  snd (PostsRouter.delete_id
         (snd (PostsRouter.delete_id Sample.db (JS.VString (JS.js " p2 "))))
         (JS.VString (JS.js " p2 ")))
  = snd (PostsRouter.delete_id Sample.db (JS.VString (JS.js " p2 "))) /\
  fst (PostsRouter.delete_id
         (snd (PostsRouter.delete_id Sample.db (JS.VString (JS.js " p2 "))))
         (JS.VString (JS.js " p2 ")))
  = Http.Sent 404 (Http.JsonError "Post not found") /\
  fst (PostsRouter.delete_id Sample.db (JS.VString (JS.js " p2 ")))
  = Http.Sent 204 Http.NoBody /\
  PostsRouter.delete_id
    (snd (PostsRouter.delete_id Sample.db (JS.VString (JS.js "   "))))
    (JS.VString (JS.js "   "))
  = (Http.Sent 400 (Http.JsonError "Post ID is required"), Sample.db).
Proof.
  destruct (delete_id_twice Sample.db (JS.VString (JS.js " p2 ")) eq_refl)
    as [Same [NonBlank _]].
  destruct (NonBlank (JS.js " p2 ") eq_refl ltac:(discriminate))
    as [Second First].
  destruct (delete_id_twice Sample.db (JS.VString (JS.js "   ")) eq_refl)
    as [_ [_ Blank]].
  split; [exact Same|]. split; [exact Second|]. split.
  - apply First. exists Sample.again.
    split; [right; left; reflexivity | reflexivity].
  - apply Blank. intros s E. inversion E; subst s. reflexivity.
Defined.

Lemma deletePost_false_same (c : Sqlite.Database) (postId : JS.jsstring) :
  JS.state (fst (Posts.deletePost c postId)) <> Some (JS.Resolved true) ->
  snd (Posts.deletePost c postId) = c.
Proof.
  destruct (Sqlite.fault c Sqlite.DeletePost) as [f|] eqn:F.
  - rewrite (deletePost_faulty c postId f F); reflexivity.
  - rewrite (deletePost_healthy c postId F); simpl. intros H.
    pose proof (filter_length_le
      (fun q => negb (JS.eqb (PostTypes.id q) postId))
      (Sqlite.posts (Sqlite.tables c))) as L.
    fold (Specified.other_posts postId (Sqlite.posts (Sqlite.tables c))) in L.
    destruct (Z.ltb_spec 0 (Z.of_nat
      (List.length (Sqlite.posts (Sqlite.tables c)) -
       List.length (Specified.other_posts postId
                      (Sqlite.posts (Sqlite.tables c)))))) as [Lt|Ge];
      [exfalso; apply H; reflexivity|].
    unfold Specified.other_posts in *.
    rewrite filter_same_length by lia.
    apply with_posts_same.
Qed.

(** X7. DELETE /posts/:id writes to the storage only when it answers 204:
    with any other answer (400, 404, 500) the storage is exactly as before;
    with 204 at least one post with the trimmed id was stored, and none is
    any more. *)
Theorem delete_id_writes_only_on_204 (c : Sqlite.Database) (id : JS.value) :
  (fst (PostsRouter.delete_id c id) <> Http.Sent 204 Http.NoBody ->
   snd (PostsRouter.delete_id c id) = c) /\
  (fst (PostsRouter.delete_id c id) = Http.Sent 204 Http.NoBody ->
   exists s,
     id = JS.VString s /\
     (exists row, In row (Sqlite.posts (Sqlite.tables c)) /\
                  PostTypes.id row = JS.trim s) /\
     forall row,
       In row (Sqlite.posts (Sqlite.tables (snd (PostsRouter.delete_id c id)))) ->
       PostTypes.id row <> JS.trim s).
Proof.
  destruct (delete_id_cases c id) as [R | [s [-> [N R]]]].
  - rewrite R; simpl. split; [reflexivity | discriminate].
  - rewrite R; simpl. split.
    + intros H. apply deletePost_false_same. intros S. rewrite S in H.
      apply H; reflexivity.
    + intros H. exists s. split; [reflexivity|].
      destruct (Sqlite.fault c Sqlite.DeletePost) as [f|] eqn:F.
      * rewrite (deletePost_faulty c (JS.trim s) f F) in H; discriminate.
      * rewrite (deletePost_healthy c (JS.trim s) F) in *; simpl in *.
        split.
        -- apply other_posts_shorter.
           destruct (Z.ltb_spec 0 (Z.of_nat
             (List.length (Sqlite.posts (Sqlite.tables c)) -
              List.length (Specified.other_posts (JS.trim s)
                             (Sqlite.posts (Sqlite.tables c))))));
             [lia | discriminate].
        -- intros row Hin. apply in_other_posts in Hin. tauto.
Qed.

Lemma delete_id_writes_only_on_204_witness :
  snd (PostsRouter.delete_id Sample.db (JS.VString (JS.js "no-such-post")))
  = Sample.db /\
  exists s,
    JS.VString (JS.js "p1 ") = JS.VString s /\
    (exists row, In row (Sqlite.posts (Sqlite.tables Sample.db)) /\
                 PostTypes.id row = JS.trim s) /\
    forall row,
      In row (Sqlite.posts (Sqlite.tables
                (snd (PostsRouter.delete_id Sample.db (JS.VString (JS.js "p1 ")))))) ->
      PostTypes.id row <> JS.trim s.
Proof.
  split.
  - apply (proj1 (delete_id_writes_only_on_204 Sample.db
                    (JS.VString (JS.js "no-such-post")))).
    discriminate.
  - apply (proj2 (delete_id_writes_only_on_204 Sample.db
                    (JS.VString (JS.js "p1 ")))).
    reflexivity.
Defined.




(** ** Referential integrity *)

Lemma deletePost_posts_subset (c : Sqlite.Database) (postId : JS.jsstring) p :
  In p (Sqlite.posts (Sqlite.tables (snd (Posts.deletePost c postId)))) ->
  In p (Sqlite.posts (Sqlite.tables c)).
Proof.
  destruct (Sqlite.fault c Sqlite.DeletePost) as [f|] eqn:F.
  - rewrite (deletePost_faulty c postId f F); simpl; auto.
  - rewrite (deletePost_healthy c postId F); simpl.
    intros H. apply in_other_posts in H. tauto.
Qed.

Lemma sample_db_referential : Further.referential Sample.db.
Proof.
  intros p [<- | [<- | []]].
  - exists Sample.ada. split; [left; reflexivity | reflexivity].
  - exists Sample.bob. split; [right; left; reflexivity | reflexivity].
Qed.

(** X4. The two writing routes keep every stored post attached to a stored
    user: if each post in the storage has its [user_id] among the ids of the
    users table, the same holds after any POST /posts and after any DELETE
    /posts/:id, whatever the request and whatever its answer. *)
Theorem routes_keep_posts_attached (env : Posts.Env) (c : Sqlite.Database) :
  Further.referential c ->
  (forall title body userId,
     Further.referential (snd (PostsRouter.post_root env c title body userId))) /\
  (forall id, Further.referential (snd (PostsRouter.delete_id c id))).
Proof.
  intros Ref. split.
  - intros title body userId.
    destruct (post_root_cases env c title body userId)
      as [[Same _] | [t [b [u [p [_ [_ [_ [_ [_ [_ [Ex [Hp R]]]]]]]]]]]]].
    + rewrite Same; exact Ref.
    + rewrite R; simpl.
      pose proof (createPost_users env c (JS.trim u) (JS.trim t) (JS.trim b)) as U.
      destruct (Posts.createPost env c (JS.trim u) (JS.trim t) (JS.trim b))
        as [created c'] eqn:E.
      destruct (createPost_resolved env c _ _ _ created c' p E Hp)
        as [_ [Shape [Stored _]]].
      simpl in *. intros q Hq. rewrite U. rewrite Stored in Hq.
      apply in_app_or in Hq. destruct Hq as [Hq | [<- | []]].
      * apply Ref; assumption.
      * rewrite Shape; simpl. apply userExists_true; assumption.
  - intros id q Hq. rewrite delete_id_users.
    apply Ref.
    destruct (delete_id_cases c id) as [R | [s [_ [_ R]]]];
      rewrite R in Hq; simpl in Hq; [assumption|].
    eapply deletePost_posts_subset; eassumption.
Qed.

Lemma routes_keep_posts_attached_witness :
  (forall title body userId,
     Further.referential
       (snd (PostsRouter.post_root Sample.env Sample.db title body userId))) /\
  (forall id, Further.referential (snd (PostsRouter.delete_id Sample.db id))).
Proof.
  apply (routes_keep_posts_attached Sample.env Sample.db).
  exact sample_db_referential.
Defined.

(** ** Pages of users *)

Lemma is_clean_trimStart (s : JS.jsstring) :
  (forall c r, s = c :: r -> JS.is_white_space c = false) ->
  JS.trimStart s = s.
Proof.
  destruct s as [|c r]; simpl; [reflexivity|].
  intros H. rewrite (H c r eq_refl). reflexivity.
Qed.

Lemma is_clean_trimEnd (s : JS.jsstring) :
  (forall r c, s = r ++ [c] -> JS.is_white_space c = false) ->
  JS.trimEnd s = s.
Proof.
  intros H. unfold JS.trimEnd.
  rewrite is_clean_trimStart; [apply rev_involutive|].
  intros c r E. apply (H (rev r) c).
  rewrite <- (rev_involutive s), E. reflexivity.
Qed.

Lemma trim_clean (s : JS.jsstring) : Specified.clean_ends s -> JS.trim s = s.
Proof.
  intros [H T]. unfold JS.trim.
  rewrite (is_clean_trimStart s H). apply is_clean_trimEnd; assumption.
Qed.

Lemma trim_idempotent (s : JS.jsstring) : JS.trim (JS.trim s) = JS.trim s.
Proof. apply trim_clean, trim_spec. Qed.

Lemma trimmed_or_empty_idempotent (f : option JS.jsstring) :
  Users.trimmed_or_empty (Users.trimmed_or_empty f) = Users.trimmed_or_empty f.
Proof.
  destruct f as [s|]; simpl; [|reflexivity].
  destruct (JS.is_empty s); simpl; [reflexivity|].
  destruct (JS.is_empty (JS.trim s)) eqn:E.
  - apply is_empty_nil in E. rewrite E; reflexivity.
  - rewrite trim_idempotent; reflexivity.
Qed.

(** X10. [formatAddress] is idempotent and touches the address only:
    formatting a user that is already formatted changes nothing, and the id,
    name, username, email and phone of a user are never altered. *)
Theorem formatAddress_idempotent (user : UserTypes.User) :
  Users.formatAddress (Users.formatAddress user) = Users.formatAddress user /\
  UserTypes.id (Users.formatAddress user) = UserTypes.id user /\
  UserTypes.name (Users.formatAddress user) = UserTypes.name user /\
  UserTypes.username (Users.formatAddress user) = UserTypes.username user /\
  UserTypes.email (Users.formatAddress user) = UserTypes.email user /\
  UserTypes.phone (Users.formatAddress user) = UserTypes.phone user.
Proof.
  split; [|repeat split].
  unfold Users.formatAddress; simpl.
  rewrite !trimmed_or_empty_idempotent. reflexivity.
Qed.

Lemma firstn_then_next {A : Type} (a b : nat) (l : list A) :
  firstn a l ++ firstn b (skipn a l) = firstn (a + b) l.
Proof.
  revert l; induction a as [|a IH]; intros l; simpl; [reflexivity|].
  destruct l as [|x l]; simpl.
  - rewrite firstn_nil; reflexivity.
  - rewrite IH; reflexivity.
Qed.

Lemma chunks_tile {A : Type} (m n : nat) (l : list A) :
  List.concat (List.map (fun k => firstn m (skipn (k * m) l)) (seq 0 n))
  = firstn (n * m) l.
Proof.
  induction n as [|n IH]; [reflexivity|].
  rewrite seq_S, map_app, concat_app, IH.
  cbn [List.map List.concat Nat.add].
  rewrite app_nil_r, firstn_then_next. f_equal. lia.
Qed.

(** X9. The pages of [getUsers] tile the users table: for a page size of
    at least 1 and a working storage, pages 0, 1, ..., n-1 put end to end are
    the first n * pageSize users of the table, formatted, each user once and
    in storage order; they are the whole table as soon as n * pageSize
    reaches the number of users. *)
Theorem getUsers_pages_tile (c : Sqlite.Database) (pageSize : Z) (n : nat) :
  1 <= pageSize ->
  Sqlite.fault c Sqlite.SelectUsers = None ->
  exists pages,
    List.length pages = n /\
    (forall k, (k < n)%nat ->
       JS.state (Users.getUsers c (Z.of_nat k) pageSize)
       = Some (JS.Resolved (nth k pages []))) /\
    List.concat pages
    = List.map Users.formatAddress
        (firstn (n * Z.to_nat pageSize) (Sqlite.users (Sqlite.tables c))) /\
    (Z.of_nat (List.length (Sqlite.users (Sqlite.tables c)))
     <= Z.of_nat n * pageSize ->
     List.concat pages
     = List.map Users.formatAddress (Sqlite.users (Sqlite.tables c))).
Proof.
  intros Hs Hf.
  set (us := Sqlite.users (Sqlite.tables c)).
  set (m := Z.to_nat pageSize).
  set (chunk := fun k : nat => firstn m (skipn (k * m) us)).
  assert (Tile : List.concat (List.map (fun k => List.map Users.formatAddress (chunk k))
                           (seq 0 n))
                 = List.map Users.formatAddress (firstn (n * m) us)).
  { rewrite <- (chunks_tile m n us), concat_map, map_map. reflexivity. }
  exists (List.map (fun k => List.map Users.formatAddress (chunk k)) (seq 0 n)).
  split; [rewrite length_map, length_seq; reflexivity|].
  split; [|split].
  - intros k Hk.
    rewrite (getUsers_healthy c _ _ Hf); simpl.
    rewrite limit_offset_page by lia.
    rewrite (nth_indep _ [] (List.map Users.formatAddress (chunk 0%nat)))
      by (rewrite length_map, length_seq; exact Hk).
    rewrite (map_nth (fun k => List.map Users.formatAddress (chunk k))).
    rewrite seq_nth by exact Hk. simpl.
    unfold chunk, m, us.
    rewrite Z2Nat.inj_mul by lia. rewrite Nat2Z.id. reflexivity.
  - exact Tile.
  - intros Hall. rewrite Tile. f_equal.
    apply firstn_all2. unfold m, us in *. lia.
Qed.

Lemma getUsers_pages_tile_witness :
  exists pages,
    List.length pages = 3%nat /\
    (forall k, (k < 3)%nat ->
       JS.state (Users.getUsers Sample.db (Z.of_nat k) 2)
       = Some (JS.Resolved (nth k pages []))) /\
    List.concat pages
    = List.map Users.formatAddress
        (firstn (3 * Z.to_nat 2) (Sqlite.users (Sqlite.tables Sample.db))) /\
    (Z.of_nat (List.length (Sqlite.users (Sqlite.tables Sample.db)))
     <= Z.of_nat 3 * 2 ->
     List.concat pages
     = List.map Users.formatAddress (Sqlite.users (Sqlite.tables Sample.db))).
Proof.
  apply (getUsers_pages_tile Sample.db 2 3); [lia | reflexivity].
Defined.

(** X11. GET /users with integer parameters: a negative pageNumber or a
    negative pageSize is answered 400 with a [message] body and the storage
    is not queried; pageNumber >= 0 with pageSize >= 1 is answered, on a
    working storage, 200 with the formatted users from offset pageNumber *
    pageSize on, at most pageSize of them; an absent or non-numeric
    parameter counts as pageNumber 0 and pageSize 4. *)
Theorem users_get_root_answers (c : Sqlite.Database) (pageNumber pageSize : Z) :
  (pageNumber < 0 \/ pageSize < 0 ->
   forall broken,
     UsersRouter.get_root (Sqlite.mkDatabase (Sqlite.tables c) broken)
       (JS.Numeric pageNumber) (JS.Numeric pageSize)
     = (Http.Sent 400 (Http.JsonMessage "Invalid page number or page size"),
        Sqlite.mkDatabase (Sqlite.tables c) broken)) /\
  (0 <= pageNumber -> 1 <= pageSize ->
   Sqlite.fault c Sqlite.SelectUsers = None ->
   UsersRouter.get_root c (JS.Numeric pageNumber) (JS.Numeric pageSize)
   = (Http.Sent 200
        (Http.JsonUsers
           (List.map Users.formatAddress
              (firstn (Z.to_nat pageSize)
                 (skipn (Z.to_nat (pageNumber * pageSize))
                    (Sqlite.users (Sqlite.tables c)))))),
      c)) /\
  (forall p q,
     (p = JS.Absent \/ exists text, p = JS.NotNumeric text) ->
     (q = JS.Absent \/ exists text, q = JS.NotNumeric text) ->
     UsersRouter.get_root c p (JS.Numeric pageSize)
     = UsersRouter.get_root c (JS.Numeric 0) (JS.Numeric pageSize) /\
     UsersRouter.get_root c (JS.Numeric pageNumber) q
     = UsersRouter.get_root c (JS.Numeric pageNumber) (JS.Numeric 4)).
Proof.
  split; [|split].
  - intros Neg broken. unfold UsersRouter.get_root; simpl.
    destruct (Z.eqb_spec pageNumber 0), (Z.eqb_spec pageSize 0);
      destruct Neg as [Neg | Neg];
      try lia;
      repeat match goal with
        | |- context [?a <? ?b] => destruct (Z.ltb_spec a b); try lia
        end; reflexivity.
  - intros Hn Hs Hf. unfold UsersRouter.get_root; simpl.
    destruct (Z.eqb_spec pageSize 0); [lia|].
    destruct (Z.ltb_spec pageSize 1); [lia|].
    destruct (Z.eqb_spec pageNumber 0) as [->|].
    + simpl. rewrite (getUsers_healthy c _ _ Hf).
      unfold JS.await; simpl. rewrite limit_offset_page by lia. reflexivity.
    + destruct (Z.ltb_spec pageNumber 0); [lia|]. simpl.
      rewrite (getUsers_healthy c _ _ Hf).
      unfold JS.await; simpl. rewrite limit_offset_page by lia. reflexivity.
  - intros p q Hp Hq. split.
    + destruct Hp as [-> | [text ->]]; reflexivity.
    + destruct Hq as [-> | [text ->]]; reflexivity.
Qed.

Lemma users_get_root_answers_witness :
  UsersRouter.get_root
    (Sqlite.mkDatabase (Sqlite.tables Sample.db) (fun _ => Some Sample.disk_error))
    (JS.Numeric (-1)) (JS.Numeric 4)
  = (Http.Sent 400 (Http.JsonMessage "Invalid page number or page size"),
     Sqlite.mkDatabase (Sqlite.tables Sample.db) (fun _ => Some Sample.disk_error)) /\
  UsersRouter.get_root Sample.db (JS.Numeric 1) (JS.Numeric 3)
  = (Http.Sent 200
       (Http.JsonUsers
          (List.map Users.formatAddress
             (firstn (Z.to_nat 3)
                (skipn (Z.to_nat (1 * 3))
                   (Sqlite.users (Sqlite.tables Sample.db)))))),
     Sample.db) /\
  UsersRouter.get_root Sample.db (JS.NotNumeric (JS.js "abc")) (JS.Numeric 3)
  = UsersRouter.get_root Sample.db (JS.Numeric 0) (JS.Numeric 3).
Proof.
  split; [|split].
  - apply (proj1 (users_get_root_answers Sample.db (-1) 4)). left; lia.
  - apply (proj1 (proj2 (users_get_root_answers Sample.db 1 3)));
      [lia | lia | reflexivity].
  - apply (proj2 (proj2 (users_get_root_answers Sample.db 1 3))
             (JS.NotNumeric (JS.js "abc")) JS.Absent).
    + right; exists (JS.js "abc"); reflexivity.
    + left; reflexivity.
Defined.

(* ================================================================== *)
(** * Properties of the client *)

(** ** Page controls *)

Lemma upto_nil (a b : Z) : b < a -> Pagination.upto a b = [].
Proof.
  intros H. unfold Pagination.upto.
  replace (Z.to_nat (b - a + 1)) with 0%nat by lia. reflexivity.
Qed.

Lemma upto_cons (a b : Z) :
  a <= b -> Pagination.upto a b = a :: Pagination.upto (a + 1) b.
Proof.
  intros H. unfold Pagination.upto.
  replace (Z.to_nat (b - a + 1)) with (S (Z.to_nat (b - (a + 1) + 1))) by lia.
  cbn [seq List.map]. f_equal; [lia|].
  rewrite <- seq_shift, map_map.
  apply map_ext. intros k. lia.
Qed.

Lemma upto_length (a b : Z) :
  List.length (Pagination.upto a b) = Z.to_nat (b - a + 1).
Proof. unfold Pagination.upto. rewrite length_map, length_seq. reflexivity. Qed.

Lemma in_upto (a b x : Z) : In x (Pagination.upto a b) <-> a <= x <= b.
Proof.
  unfold Pagination.upto. rewrite in_map_iff. split.
  - intros [k [<- Hk]]. apply in_seq in Hk. lia.
  - intros H. exists (Z.to_nat (x - a)). split; [lia|].
    apply in_seq. lia.
Qed.

Lemma upto_sorted (a b : Z) : StronglySorted Z.lt (Pagination.upto a b).
Proof.
  remember (Z.to_nat (b - a + 1)) as n eqn:En.
  revert a En. induction n as [|n IH]; intros a En.
  - rewrite upto_nil by lia. constructor.
  - rewrite upto_cons by lia. constructor.
    + apply IH. lia.
    + apply Forall_forall. intros x Hx. apply in_upto in Hx. lia.
Qed.

Lemma sorted_app (l1 l2 : list Z) :
  StronglySorted Z.lt l1 -> StronglySorted Z.lt l2 ->
  (forall x y, In x l1 -> In y l2 -> x < y) ->
  StronglySorted Z.lt (l1 ++ l2).
Proof.
  intros S1 S2 H. induction S1 as [|a l S1 IH F]; simpl; [assumption|].
  constructor.
  - apply IH. intros x y Hx Hy. apply H; [right|]; assumption.
  - apply Forall_app. split; [assumption|].
    apply Forall_forall. intros y Hy. apply H; [left; reflexivity | assumption].
Qed.

(** The first and the last page of the window of [renderPages]. *)
Lemma renderPages_window (currentPage totalPages : Z) :
  exists start end_,
    start = Z.max 0 (Z.min (currentPage - 2) (totalPages - 5)) /\
    end_ = Z.min (totalPages - 1) (Z.max (currentPage + 2) 4) /\
    Pagination.renderPages currentPage totalPages
    = (if 0 <? start then
         Pagination.Button 0 0 1 false
         :: (if 1 <? start then [Pagination.Dots "dots-start"] else [])
       else [])
      ++ List.map (fun i => Pagination.Button i i (i + 1) (i =? currentPage))
           (Pagination.upto start end_)
      ++ (if end_ <? totalPages - 1 then
            (if end_ <? totalPages - 2 then [Pagination.Dots "dots-end"] else [])
            ++ [Pagination.Button (totalPages - 1) (totalPages - 1) totalPages false]
          else []).
Proof.
  eexists; eexists. split; [reflexivity|]. split; [reflexivity|].
  unfold Pagination.renderPages.
  destruct (Z.leb_spec currentPage 1), (Z.leb_spec (totalPages - 2) currentPage);
    repeat match goal with
      | |- context [Z.max ?a ?b] =>
          first [ replace (Z.max a b) with a by lia
                | replace (Z.max a b) with b by lia ]
      | |- context [Z.min ?a ?b] =>
          first [ replace (Z.min a b) with a by lia
                | replace (Z.min a b) with b by lia ]
      end; reflexivity.
Qed.

Lemma pages_of_app (l1 l2 : list Pagination.element) :
  Pagination.pages_of (l1 ++ l2)
  = Pagination.pages_of l1 ++ Pagination.pages_of l2.
Proof. unfold Pagination.pages_of. apply flat_map_app. Qed.

Lemma pages_of_buttons (currentPage : Z) (l : list Z) :
  Pagination.pages_of
    (List.map (fun i => Pagination.Button i i (i + 1) (i =? currentPage)) l)
  = l.
Proof. induction l as [|x l IH]; simpl; [reflexivity | f_equal; exact IH]. Qed.

Lemma renderPages_pages (currentPage totalPages : Z) :
  exists start end_,
    start = Z.max 0 (Z.min (currentPage - 2) (totalPages - 5)) /\
    end_ = Z.min (totalPages - 1) (Z.max (currentPage + 2) 4) /\
    Pagination.pages_of (Pagination.renderPages currentPage totalPages)
    = (if 0 <? start then [0] else [])
      ++ Pagination.upto start end_
      ++ (if end_ <? totalPages - 1 then [totalPages - 1] else []).
Proof.
  destruct (renderPages_window currentPage totalPages)
    as [start [end_ [Hs [He R]]]].
  exists start, end_. split; [assumption|]. split; [assumption|].
  rewrite R, !pages_of_app, pages_of_buttons.
  destruct (0 <? start), (1 <? start), (end_ <? totalPages - 1),
    (end_ <? totalPages - 2); reflexivity.
Qed.

Lemma highlighted_app (l1 l2 : list Pagination.element) :
  Pagination.highlighted (l1 ++ l2)
  = Pagination.highlighted l1 ++ Pagination.highlighted l2.
Proof. unfold Pagination.highlighted. apply flat_map_app. Qed.

Lemma highlighted_buttons (currentPage : Z) (l : list Z) :
  Pagination.highlighted
    (List.map (fun i => Pagination.Button i i (i + 1) (i =? currentPage)) l)
  = filter (fun i => i =? currentPage) l.
Proof.
  induction l as [|x l IH]; simpl; [reflexivity|].
  destruct (x =? currentPage); simpl; rewrite IH; reflexivity.
Qed.

Lemma filter_eq_sorted (x : Z) (l : list Z) :
  StronglySorted Z.lt l -> In x l -> filter (fun i => i =? x) l = [x].
Proof.
  intros S. induction S as [|a l S IH F]; simpl; [intros []|].
  intros [-> | Hin].
  - rewrite Z.eqb_refl. f_equal.
    rewrite Forall_forall in F.
    clear IH S. induction l as [|b l IHl]; simpl; [reflexivity|].
    assert (x < b) by (apply F; left; reflexivity).
    destruct (Z.eqb_spec b x); [lia|].
    apply IHl. intros y Hy. apply F. right; assumption.
  - rewrite Forall_forall in F. specialize (F x Hin).
    destruct (Z.eqb_spec a x); [lia|]. apply IH; assumption.
Qed.

(** X12. For a current page within 0 .. totalPages - 1, the page buttons
    of [renderPages] come in strictly increasing page order, all within
    range; the first page, the last page, the current page and every existing
    page at most two away from the current one have a button; there are at
    most seven buttons; each button shows its page number plus one and uses
    its page as key; and exactly one button is highlighted, the current
    page's. *)
Theorem renderPages_buttons (currentPage totalPages : Z) :
  0 <= currentPage < totalPages ->
  StronglySorted Z.lt
    (Pagination.pages_of (Pagination.renderPages currentPage totalPages)) /\
  (forall p,
     In p (Pagination.pages_of (Pagination.renderPages currentPage totalPages)) ->
     0 <= p < totalPages) /\
  In 0 (Pagination.pages_of (Pagination.renderPages currentPage totalPages)) /\
  In (totalPages - 1)
     (Pagination.pages_of (Pagination.renderPages currentPage totalPages)) /\
  (forall p, currentPage - 2 <= p <= currentPage + 2 -> 0 <= p < totalPages ->
     In p (Pagination.pages_of (Pagination.renderPages currentPage totalPages))) /\
  (List.length
     (Pagination.pages_of (Pagination.renderPages currentPage totalPages))
   <= 7)%nat /\
  (forall key page label active,
     In (Pagination.Button key page label active)
        (Pagination.renderPages currentPage totalPages) ->
     key = page /\ label = page + 1) /\
  Pagination.highlighted (Pagination.renderPages currentPage totalPages)
  = [currentPage].
Proof.
  intros Range.
  destruct (renderPages_pages currentPage totalPages)
    as [start [end_ [Hs [He P]]]].
  assert (In_pages : forall p,
            In p (Pagination.pages_of
                    (Pagination.renderPages currentPage totalPages)) <->
            (0 < start /\ p = 0) \/ start <= p <= end_ \/
            (end_ < totalPages - 1 /\ p = totalPages - 1)).
  { intros p. rewrite P, !in_app_iff, in_upto.
    destruct (Z.ltb_spec 0 start), (Z.ltb_spec end_ (totalPages - 1)); simpl;
      intuition lia. }
  assert (Sorted :
            StronglySorted Z.lt
              (Pagination.pages_of
                 (Pagination.renderPages currentPage totalPages))).
  { rewrite P. apply sorted_app; [|apply sorted_app|].
    - destruct (0 <? start); repeat constructor.
    - apply upto_sorted.
    - destruct (end_ <? totalPages - 1); repeat constructor.
    - intros x y Hx Hy. apply in_upto in Hx.
      destruct (Z.ltb_spec end_ (totalPages - 1)); simpl in Hy; intuition lia.
    - intros x y Hx Hy. rewrite in_app_iff, in_upto in Hy.
      destruct (Z.ltb_spec 0 start); simpl in Hx; [|contradiction].
      destruct (Z.ltb_spec end_ (totalPages - 1)); simpl in Hy; intuition lia. }
  split; [exact Sorted|].
  split; [intros p Hp; apply In_pages in Hp; lia|].
  split; [apply In_pages; lia|].
  split; [apply In_pages; lia|].
  split; [intros p Near In_range; apply In_pages; lia|].
  split.
  { rewrite P, !length_app, upto_length.
    destruct (0 <? start), (end_ <? totalPages - 1); simpl; lia. }
  destruct (renderPages_window currentPage totalPages)
    as [start' [end' [Hs' [He' R]]]].
  subst start' end'. rewrite <- Hs, <- He in R.
  split.
  - intros key page label active Hin. rewrite R in Hin.
    rewrite !in_app_iff, in_map_iff in Hin.
    destruct Hin as [Hin | [[i [E _]] | Hin]].
    + destruct (0 <? start); [|contradiction].
      destruct Hin as [E | Hin]; [inversion E; subst; split; reflexivity|].
      destruct (1 <? start); [destruct Hin as [E | []]; discriminate | contradiction].
    + inversion E; subst; split; reflexivity.
    + destruct (end_ <? totalPages - 1); [|contradiction].
      destruct (end_ <? totalPages - 2); simpl in Hin.
      * destruct Hin as [E | [E | []]]; [discriminate|].
        inversion E; subst; split; [reflexivity | lia].
      * destruct Hin as [E | []].
        inversion E; subst; split; [reflexivity | lia].
  - rewrite R, !highlighted_app, highlighted_buttons.
    replace (Pagination.highlighted
               (if 0 <? start
                then Pagination.Button 0 0 1 false
                     :: (if 1 <? start then [Pagination.Dots "dots-start"] else [])
                else []))
      with (@nil Z)
      by (destruct (0 <? start), (1 <? start); reflexivity).
    replace (Pagination.highlighted
               (if end_ <? totalPages - 1
                then (if end_ <? totalPages - 2
                      then [Pagination.Dots "dots-end"] else [])
                     ++ [Pagination.Button (totalPages - 1) (totalPages - 1)
                           totalPages false]
                else []))
      with (@nil Z)
      by (destruct (end_ <? totalPages - 1), (end_ <? totalPages - 2);
          reflexivity).
    simpl. rewrite app_nil_r.
    apply filter_eq_sorted; [apply upto_sorted | apply in_upto; lia].
Qed.

Lemma renderPages_buttons_witness :
  StronglySorted Z.lt (Pagination.pages_of (Pagination.renderPages 10 20)) /\
  Pagination.pages_of (Pagination.renderPages 10 20) = [0; 8; 9; 10; 11; 12; 19] /\
  Pagination.highlighted (Pagination.renderPages 10 20) = [10].
Proof.
  split; [|split].
  - apply (renderPages_buttons 10 20). lia.
  - reflexivity.
  - apply (renderPages_buttons 10 20). lia.
Defined.

Lemma gaps_marked_run (currentPage : Z) (n : nat) :
  forall (s e : Z) (tail : list Pagination.element),
    e = s + Z.of_nat n ->
    Pagination.gaps_marked
      (Pagination.Button e e (e + 1) (e =? currentPage) :: tail) ->
    Pagination.gaps_marked
      (List.map (fun i => Pagination.Button i i (i + 1) (i =? currentPage))
         (Pagination.upto s e) ++ tail).
Proof.
  induction n as [|n IH]; intros s e tail E G.
  - simpl in E. rewrite Z.add_0_r in E. subst e.
    rewrite upto_cons, upto_nil by lia. exact G.
  - rewrite upto_cons by lia.
    specialize (IH (s + 1) e tail ltac:(lia) G).
    rewrite upto_cons in IH |- * by lia.
    cbn [List.map app] in IH |- *. cbn [Pagination.gaps_marked].
    split; [reflexivity | exact IH].
Qed.

(** X13. For a current page within range, the ellipses of [renderPages] sit
    exactly in the gaps: the list starts and ends with a button, two
    neighbouring buttons are consecutive pages, and an ellipsis stands
    between two buttons whose pages are more than one apart, and only there.
    With at most five pages there is no ellipsis and every page has its
    button. *)
Theorem renderPages_gaps (currentPage totalPages : Z) :
  0 <= currentPage < totalPages ->
  Pagination.gaps_marked (Pagination.renderPages currentPage totalPages) /\
  (totalPages <= 5 ->
   Pagination.renderPages currentPage totalPages
   = List.map (fun i => Pagination.Button i i (i + 1) (i =? currentPage))
       (Pagination.upto 0 (totalPages - 1))).
Proof.
  intros Range.
  destruct (renderPages_window currentPage totalPages)
    as [start [end_ [Hs [He R]]]].
  rewrite R. split.
  - assert (Run : forall tail,
              Pagination.gaps_marked
                (Pagination.Button end_ end_ (end_ + 1) (end_ =? currentPage)
                 :: tail) ->
              Pagination.gaps_marked
                (List.map
                   (fun i => Pagination.Button i i (i + 1) (i =? currentPage))
                   (Pagination.upto start end_) ++ tail)).
    { intros tail G.
      apply (gaps_marked_run currentPage (Z.to_nat (end_ - start))); [lia | exact G]. }
    assert (Tail :
              Pagination.gaps_marked
                (List.map
                   (fun i => Pagination.Button i i (i + 1) (i =? currentPage))
                   (Pagination.upto start end_)
                 ++ (if end_ <? totalPages - 1 then
                       (if end_ <? totalPages - 2
                        then [Pagination.Dots "dots-end"] else [])
                       ++ [Pagination.Button (totalPages - 1) (totalPages - 1)
                             totalPages false]
                     else []))).
    { apply Run.
      destruct (Z.ltb_spec end_ (totalPages - 1)); [|exact I].
      destruct (Z.ltb_spec end_ (totalPages - 2)); simpl; split; try exact I; lia. }
    destruct (Z.ltb_spec 0 start); [|exact Tail].
    rewrite upto_cons in Tail |- * by lia.
    destruct (Z.ltb_spec 1 start); cbn [List.map app] in Tail |- *;
      cbn [Pagination.gaps_marked]; split; try exact Tail; lia.
  - intros Few.
    replace start with 0 by lia. replace end_ with (totalPages - 1) by lia.
    rewrite !Z.ltb_irrefl. cbn [app]. rewrite app_nil_r. reflexivity.
Qed.

Lemma renderPages_gaps_witness :
  Pagination.gaps_marked (Pagination.renderPages 10 20) /\
  Pagination.renderPages 2 4
  = List.map (fun i => Pagination.Button i i (i + 1) (i =? 2))
      (Pagination.upto 0 (4 - 1)).
Proof.
  split.
  - apply (renderPages_gaps 10 20). lia.
  - apply (proj2 (renderPages_gaps 2 4 ltac:(lia))). lia.
Defined.



(** ** Users page *)

Lemma users_get_root_page (c : Sqlite.Database) (pageNumber pageSize : Z) :
  0 <= pageNumber -> 1 <= pageSize ->
  Sqlite.fault c Sqlite.SelectUsers = None ->
  UsersRouter.get_root c (JS.Numeric pageNumber) (JS.Numeric pageSize)
  = (Http.Sent 200
       (Http.JsonUsers
          (List.map Users.formatAddress
             (firstn (Z.to_nat pageSize)
                (skipn (Z.to_nat (pageNumber * pageSize))
                   (Sqlite.users (Sqlite.tables c)))))),
     c).
Proof.
  intros Hn Hs Hf. unfold UsersRouter.get_root; simpl.
  destruct (Z.eqb_spec pageSize 0); [lia|].
  destruct (Z.ltb_spec pageSize 1); [lia|].
  destruct (Z.eqb_spec pageNumber 0) as [->|].
  - simpl. rewrite (getUsers_healthy c _ _ Hf).
    unfold JS.await; simpl. rewrite limit_offset_page by lia. reflexivity.
  - destruct (Z.ltb_spec pageNumber 0); [lia|]. simpl.
    rewrite (getUsers_healthy c _ _ Hf).
    unfold JS.await; simpl. rewrite limit_offset_page by lia. reflexivity.
Qed.

(** X15. The number of pages the users page computes from the answer of
    GET /users/count is the number of non-empty pages of the server: on a
    working storage, the page the client fetches for an index (with its page
    size of 4) holds at least one user exactly when the index is below
    [totalPages]. *)
Theorem totalPages_counts_pages (c : Sqlite.Database) :
  Sqlite.fault c Sqlite.SelectUsers = None ->
  Sqlite.fault c Sqlite.SelectCountOfUsers = None ->
  exists count,
    UsersRouter.get_count c = (Http.Sent 200 (Http.JsonCount count), c) /\
    0 <= UsersPage.totalPages (Some count) /\
    forall page, 0 <= page ->
      exists users,
        UsersRouter.get_root c (JS.Numeric page) (JS.Numeric UsersPage.PAGE_SIZE)
        = (Http.Sent 200 (Http.JsonUsers users), c) /\
        (users <> [] <-> page < UsersPage.totalPages (Some count)).
Proof.
  intros Hu Hc.
  exists (Z.of_nat (List.length (Sqlite.users (Sqlite.tables c)))).
  split.
  { unfold UsersRouter.get_count. rewrite (getUsersCount_healthy c Hc).
    reflexivity. }
  assert (T : UsersPage.totalPages
                (Some (Z.of_nat (List.length (Sqlite.users (Sqlite.tables c)))))
              = - ((- Z.of_nat (List.length (Sqlite.users (Sqlite.tables c)))) / 4)).
  { unfold UsersPage.totalPages, UsersPage.totalUsers, UsersPage.PAGE_SIZE.
    destruct (Z.eqb_spec (Z.of_nat (List.length (Sqlite.users (Sqlite.tables c)))) 0)
      as [E|E]; [rewrite E|]; reflexivity. }
  rewrite T. split; [Z.div_mod_to_equations; lia|].
  intros page Hp. eexists. split.
  { apply users_get_root_page; [assumption | unfold UsersPage.PAGE_SIZE; lia
                                | assumption]. }
  rewrite <- length_zero_iff_nil, length_map.
  pose proof (page_length (page * UsersPage.PAGE_SIZE) UsersPage.PAGE_SIZE
                (Sqlite.users (Sqlite.tables c))) as L.
  unfold UsersPage.PAGE_SIZE in *.
  specialize (L ltac:(lia) ltac:(lia)).
  Z.div_mod_to_equations. lia.
Qed.

Lemma totalPages_counts_pages_witness :
  exists count,
    UsersRouter.get_count Sample.db
    = (Http.Sent 200 (Http.JsonCount count), Sample.db) /\
    0 <= UsersPage.totalPages (Some count) /\
    forall page, 0 <= page ->
      exists users,
        UsersRouter.get_root Sample.db (JS.Numeric page)
          (JS.Numeric UsersPage.PAGE_SIZE)
        = (Http.Sent 200 (Http.JsonUsers users), Sample.db) /\
        (users <> [] <-> page < UsersPage.totalPages (Some count)).
Proof.
  apply (totalPages_counts_pages Sample.db); reflexivity.
Defined.

Lemma trimStart_blank (s : JS.jsstring) :
  JS.is_empty (JS.trimStart s) = forallb JS.is_white_space s.
Proof.
  induction s as [|c s IH]; simpl; [reflexivity|].
  destruct (JS.is_white_space c); simpl; [exact IH | reflexivity].
Qed.

Lemma forallb_rev {A : Type} (f : A -> bool) (l : list A) :
  forallb f (rev l) = forallb f l.
Proof.
  induction l as [|a l IH]; simpl; [reflexivity|].
  rewrite forallb_app, IH; simpl. rewrite andb_true_r. apply andb_comm.
Qed.

Lemma trimEnd_blank (s : JS.jsstring) :
  JS.is_empty (JS.trimEnd s) = forallb JS.is_white_space s.
Proof.
  unfold JS.trimEnd.
  replace (JS.is_empty (rev (JS.trimStart (rev s))))
    with (JS.is_empty (JS.trimStart (rev s))).
  - rewrite trimStart_blank. apply forallb_rev.
  - destruct (JS.trimStart (rev s)) as [|a l]; [reflexivity|].
    simpl. destruct (rev l); reflexivity.
Qed.

Lemma trim_blank (s : JS.jsstring) :
  JS.is_empty (JS.trim s) = forallb JS.is_white_space s.
Proof.
  unfold JS.trim. rewrite trimEnd_blank.
  destruct (trimStart_split s) as [l [E F]].
  rewrite E at 2. rewrite forallb_app.
  replace (forallb JS.is_white_space l) with true; [reflexivity|].
  symmetry. apply forallb_forall. rewrite Forall_forall in F. exact F.
Qed.

Lemma Boolean_trimmed_or_empty (part : option JS.jsstring) :
  UsersPage.Boolean (Users.trimmed_or_empty part) = negb (Further.blank part).
Proof.
  destruct part as [s|]; simpl; [|reflexivity].
  destruct (JS.is_empty s) eqn:E; simpl.
  - apply is_empty_nil in E; subst s; reflexivity.
  - rewrite trim_blank; reflexivity.
Qed.

Lemma trimmed_or_empty_shown (part : option JS.jsstring) :
  Further.blank part = false ->
  Users.trimmed_or_empty part = option_map JS.trim part.
Proof.
  destruct part as [s|]; simpl; [|discriminate].
  destruct s; simpl; [discriminate | reflexivity].
Qed.

Lemma filter_Boolean_formatted (parts : list (option JS.jsstring)) :
  filter UsersPage.Boolean (List.map Users.trimmed_or_empty parts)
  = List.map (option_map JS.trim)
      (filter (fun part => negb (Further.blank part)) parts).
Proof.
  induction parts as [|p parts IH]; simpl; [reflexivity|].
  rewrite Boolean_trimmed_or_empty.
  destruct (Further.blank p) eqn:B; simpl; [exact IH|].
  rewrite IH, (trimmed_or_empty_shown p B). reflexivity.
Qed.

Lemma none_shown (parts : list (option JS.jsstring)) :
  (0 <? List.length
          (List.map (option_map JS.trim)
             (filter (fun part => negb (Further.blank part)) parts)))%nat
  = negb (forallb Further.blank parts).
Proof.
  induction parts as [|p parts IH]; simpl; [reflexivity|].
  destruct (Further.blank p); simpl; [exact IH | reflexivity].
Qed.

(** X16. What the users page shows as the address of a user received from
    the server: the street, state, city and zipcode (in this order) that are
    not null, empty or white space only in storage, each trimmed, joined by
    ", "; and "No address" when all four are blank.  A blank part never
    leaves an empty segment or a dangling separator. *)
Theorem displayed_address (row : UserTypes.User) :
  UsersPage.formatAddress (Users.formatAddress row)
  = (if forallb Further.blank (Further.parts_of row) then JS.js "No address"
     else UsersPage.join (JS.js ", ") (Further.shown_parts row)) /\
  Forall (fun part => exists s, part = Some s /\ s <> [] /\ Specified.clean_ends s)
         (Further.shown_parts row).
Proof.
  split.
  - unfold UsersPage.formatAddress, Further.shown_parts.
    change [UserTypes.street (Users.formatAddress row);
            UserTypes.state (Users.formatAddress row);
            UserTypes.city (Users.formatAddress row);
            UserTypes.zipcode (Users.formatAddress row)]
      with (List.map Users.trimmed_or_empty (Further.parts_of row)).
    rewrite filter_Boolean_formatted, none_shown.
    destruct (forallb Further.blank (Further.parts_of row)); reflexivity.
  - unfold Further.shown_parts.
    apply Forall_forall. intros part Hin.
    apply in_map_iff in Hin. destruct Hin as [stored [<- Hin]].
    apply filter_In in Hin. destruct Hin as [_ B].
    destruct stored as [s|]; simpl in *; [|discriminate].
    exists (JS.trim s). split; [reflexivity|].
    split; [|apply trim_spec].
    apply is_empty_false. rewrite trim_blank.
    destruct (forallb JS.is_white_space s); [discriminate | reflexivity].
Qed.

(** ** New post form *)

(** X17. What the new post form lets through, the server accepts: the form
    refuses a title or body that is blank; otherwise it submits their
    trimmed forms, and for these (with the non-empty userId of the page)
    POST /posts never answers with a title or body error: a 400 can only be
    the white-space-only userId one, and a created post carries exactly the
    submitted title and body. *)
Theorem accepted_form_passes_server (title body : JS.jsstring) :
  (forall message,
     NewPostModal.handleSubmit title body = NewPostModal.Refused message ->
     message = "Title and content are required."%string /\
     (forallb JS.is_white_space title = true \/
      forallb JS.is_white_space body = true)) /\
  (forall message t b,
     NewPostModal.handleSubmit title body = NewPostModal.Mutate message t b ->
     t = JS.trim title /\ b = JS.trim body /\ t <> [] /\ b <> [] /\
     forall env c userId,
       userId <> [] ->
       (forall e,
          fst (PostsRouter.post_root env c
                 (JS.VString t) (JS.VString b) (JS.VString userId))
          = Http.Sent 400 (Http.JsonError e) ->
          e = "User ID cannot be empty or contain only whitespace"%string /\
          JS.trim userId = []) /\
       (forall p,
          fst (PostsRouter.post_root env c
                 (JS.VString t) (JS.VString b) (JS.VString userId))
          = Http.Sent 201 (Http.JsonPost p) ->
          PostTypes.title p = t /\ PostTypes.body p = b)).
Proof.
  unfold NewPostModal.handleSubmit. rewrite !trim_blank.
  split.
  - intros message H.
    destruct (forallb JS.is_white_space title) eqn:Bt; simpl in H.
    + inversion H. split; [reflexivity | left; reflexivity].
    + destruct (forallb JS.is_white_space body) eqn:Bb; simpl in H;
        [|discriminate].
      inversion H. split; [reflexivity | right; reflexivity].
  - intros message t b H.
    destruct (forallb JS.is_white_space title) eqn:Bt; simpl in H;
      [discriminate|].
    destruct (forallb JS.is_white_space body) eqn:Bb; simpl in H;
      [discriminate|].
    inversion H; subst; clear H.
    assert (Nt : JS.is_empty (JS.trim title) = false)
      by (rewrite trim_blank; assumption).
    assert (Nb : JS.is_empty (JS.trim body) = false)
      by (rewrite trim_blank; assumption).
    split; [reflexivity|]. split; [reflexivity|].
    split; [apply is_empty_false; assumption|].
    split; [apply is_empty_false; assumption|].
    intros env c userId Nu. apply is_empty_false in Nu.
    split.
    + intros e. unfold PostsRouter.post_root,
        PostsRouter.internal_server_error, JS.await; simpl.
      rewrite Nt, Nb, Nu, !trim_idempotent, Nt, Nb; simpl.
      destruct (JS.is_empty (JS.trim userId)) eqn:Eu.
      * simpl. intros H. inversion H.
        split; [reflexivity | apply is_empty_nil; assumption].
      * destruct (JS.state (Users.userExists c (JS.trim userId)))
          as [[[|]|err]|]; simpl; try discriminate.
        destruct (Posts.createPost env c (JS.trim userId)
                    (JS.trim title) (JS.trim body)) as [created c'].
        destruct (JS.state created) as [[p|err]|]; simpl; discriminate.
    + intros p H.
      destruct (post_root_cases env c (JS.VString (JS.trim title))
                  (JS.VString (JS.trim body)) (JS.VString userId))
        as [[_ Not] | [t [b [u [q [Et [Eb [Eu [_ [_ [_ [_ [Hq R]]]]]]]]]]]]].
      * exfalso. exact (Not p H).
      * inversion Et; inversion Eb; inversion Eu; subst t b u.
        rewrite R in H; simpl in H. inversion H; subst q.
        rewrite !trim_idempotent in Hq.
        destruct (Posts.createPost env c (JS.trim userId)
                    (JS.trim title) (JS.trim body)) as [created c'] eqn:E.
        destruct (createPost_resolved env c _ _ _ created c' p E Hq)
          as [_ [Shape _]].
        rewrite Shape; simpl. split; reflexivity.
Qed.

Lemma accepted_form_passes_server_witness :
  ("Title and content are required."%string
   = "Title and content are required."%string /\
   (forallb JS.is_white_space (JS.js "  ") = true \/
    forallb JS.is_white_space (JS.js "World") = true)) /\
  (JS.js "Hi" = JS.trim (JS.js " Hi ") /\
   JS.js "World" = JS.trim (JS.js "World") /\
   JS.js "Hi" <> [] /\ JS.js "World" <> [] /\
   forall env c userId,
     userId <> [] ->
     (forall e,
        fst (PostsRouter.post_root env c
               (JS.VString (JS.js "Hi")) (JS.VString (JS.js "World"))
               (JS.VString userId))
        = Http.Sent 400 (Http.JsonError e) ->
        e = "User ID cannot be empty or contain only whitespace"%string /\
        JS.trim userId = []) /\
     (forall p,
        fst (PostsRouter.post_root env c
               (JS.VString (JS.js "Hi")) (JS.VString (JS.js "World"))
               (JS.VString userId))
        = Http.Sent 201 (Http.JsonPost p) ->
        PostTypes.title p = JS.js "Hi" /\ PostTypes.body p = JS.js "World")).
Proof.
  split.
  - apply (proj1 (accepted_form_passes_server (JS.js "  ") (JS.js "World"))).
    reflexivity.
  - apply (proj2 (accepted_form_passes_server (JS.js " Hi ") (JS.js "World"))
             "Publishing post..."%string).
    reflexivity.
Defined.

(** ** Delete confirmation *)

Lemma run_from (events : list PostsPage.event) :
  forall s : PostsPage.State,
    (forall id, In id (snd (PostsPage.run events s)) ->
       id <> [] /\
       (In (PostsPage.ClickTrash id) events \/ PostsPage.postToDelete s = Some id)) /\
    (List.length (snd (PostsPage.run events s))
     <= List.length
          (filter (fun e => match e with PostsPage.ClickTrash _ => true
                                       | _ => false end) events)
        + (match PostsPage.postToDelete s with Some _ => 1 | None => 0 end))%nat /\
    (List.length (snd (PostsPage.run events s))
     <= List.length
          (filter (fun e => match e with PostsPage.ClickConfirm => true
                                       | _ => false end) events))%nat /\
    ((PostsPage.deleteModalOpen s = true <->
      exists id, PostsPage.postToDelete s = Some id) ->
     (PostsPage.deleteModalOpen (fst (PostsPage.run events s)) = true <->
      exists id, PostsPage.postToDelete (fst (PostsPage.run events s)) = Some id)).
Proof.
  induction events as [|e events IH]; intros s.
  - simpl. repeat split; try lia; try tauto; intros id [].
  - destruct e as [postId| |]; cbn [PostsPage.run filter List.length].
    + destruct (IH (PostsPage.handleDeletePost postId s)) as [I [T [C V]]].
      split; [|split; [|split]].
      * intros id Hin. destruct (I id Hin) as [N [H | H]].
        -- split; [assumption | left; right; assumption].
        -- simpl in H. inversion H; subst.
           split; [assumption | left; left; reflexivity].
      * simpl in T |- *. lia.
      * exact C.
      * intros _. apply V. simpl. split; [intros _; eauto | reflexivity].
    + unfold PostsPage.confirmDelete.
      destruct (PostsPage.postToDelete s) as [postId|] eqn:P.
      * destruct (JS.is_empty postId) eqn:E.
        -- destruct (IH s) as [I [T [C V]]].
           destruct (PostsPage.run events s) as [final later]; simpl in *.
           rewrite P in *.
           split; [|split; [|split]]; try assumption; try lia.
           intros id Hin. destruct (I id Hin) as [N [H | H]];
             split; auto.
        -- destruct (IH (PostsPage.mkState false None)) as [I [T [C V]]].
           destruct (PostsPage.run events (PostsPage.mkState false None))
             as [final later]; simpl in *.
           split; [|split; [|split]].
           ++ intros id [<- | Hin].
              ** split; [apply is_empty_false; assumption | right; reflexivity].
              ** destruct (I id Hin) as [N [H | H]]; [|discriminate].
                 split; auto.
           ++ lia.
           ++ lia.
           ++ intros _. apply V. split; [discriminate | intros [id H]; discriminate].
      * destruct (IH s) as [I [T [C V]]].
        destruct (PostsPage.run events s) as [final later]; simpl in *.
        rewrite P in *.
        split; [|split; [|split]]; try assumption; try lia.
        intros id Hin. destruct (I id Hin) as [N [H | H]]; split; auto.
    + destruct (IH (PostsPage.cancelDelete s)) as [I [T [C V]]].
      split; [|split; [|split]].
      * intros id Hin. destruct (I id Hin) as [N [H | H]]; [|discriminate].
        split; auto. left; right; assumption.
      * simpl in T |- *. lia.
      * exact C.
      * intros _. apply V. simpl.
        split; [discriminate | intros [id H]; discriminate].
Qed.

(** X18. The delete confirmation of the posts page, over any sequence of
    trash, confirm and cancel clicks from its initial state: every id it
    sends for deletion is non-empty and was selected by an earlier trash
    click; it sends at most one deletion per trash click and per confirm
    click (confirming twice sends once, cancelling sends nothing); and the
    dialog is open exactly while a post is selected. *)
Theorem dialog_sends_selected_posts (events : list PostsPage.event) :
  (forall id, In id (snd (PostsPage.run events PostsPage.initial)) ->
     id <> [] /\ In (PostsPage.ClickTrash id) events) /\
  (List.length (snd (PostsPage.run events PostsPage.initial))
   <= List.length
        (filter (fun e => match e with PostsPage.ClickTrash _ => true
                                     | _ => false end) events))%nat /\
  (List.length (snd (PostsPage.run events PostsPage.initial))
   <= List.length
        (filter (fun e => match e with PostsPage.ClickConfirm => true
                                     | _ => false end) events))%nat /\
  (PostsPage.deleteModalOpen (fst (PostsPage.run events PostsPage.initial)) = true
   <-> exists id,
         PostsPage.postToDelete (fst (PostsPage.run events PostsPage.initial))
         = Some id).
Proof.
  destruct (run_from events PostsPage.initial) as [I [T [C V]]].
  split; [|split; [|split]].
  - intros id Hin. destruct (I id Hin) as [N [H | H]]; [|discriminate].
    split; assumption.
  - simpl in T. lia.
  - exact C.
  - apply V. simpl. split; [discriminate | intros [id H]; discriminate].
Qed.

Lemma dialog_sends_selected_posts_witness :
  JS.js "p1" <> [] /\
  In (PostsPage.ClickTrash (JS.js "p1"))
     [PostsPage.ClickTrash (JS.js "p2"); PostsPage.ClickCancel;
      PostsPage.ClickTrash (JS.js "p1"); PostsPage.ClickConfirm;
      PostsPage.ClickConfirm].
Proof.
  apply (dialog_sends_selected_posts
           [PostsPage.ClickTrash (JS.js "p2"); PostsPage.ClickCancel;
            PostsPage.ClickTrash (JS.js "p1"); PostsPage.ClickConfirm;
            PostsPage.ClickConfirm]).
  left; reflexivity.
Defined.

(** ** Composing the routes *)

Lemma createPost_fresh (env : Posts.Env) (c : Sqlite.Database)
  (userId title body : JS.jsstring) newPost :
  JS.state (fst (Posts.createPost env c userId title body))
  = Some (JS.Resolved newPost) ->
  forall q, In q (Sqlite.posts (Sqlite.tables c)) ->
            PostTypes.id q <> PostTypes.id newPost.
Proof.
  unfold Posts.createPost, Sqlite.run_insert_post.
  destruct (Posts.randomUUID env) as [id|e]; [|discriminate].
  destruct (Sqlite.fault c Sqlite.InsertPost); [discriminate|].
  destruct (existsb _ _) eqn:X; [discriminate|].
  simpl. intros H q Hq. inversion H; subst; simpl.
  intros E.
  assert (existsb (fun p => JS.eqb (PostTypes.id p) id)
                  (Sqlite.posts (Sqlite.tables c)) = true); [|simpl in *; congruence].
  apply existsb_exists. exists q. split; [assumption | apply eqb_eq; assumption].
Qed.

Lemma other_posts_fresh (postId : JS.jsstring) (rows : list PostTypes.Post) :
  (forall q, In q rows -> PostTypes.id q <> postId) ->
  Specified.other_posts postId rows = rows.
Proof.
  intros H. unfold Specified.other_posts.
  induction rows as [|p rows IH]; simpl; [reflexivity|].
  destruct (JS.eqb (PostTypes.id p) postId) eqn:E; simpl.
  - apply eqb_eq in E. exfalso. apply (H p); [left; reflexivity | assumption].
  - f_equal. apply IH. intros q Hq. apply H. right; assumption.
Qed.

(** X19. Deleting a post that was just created undoes the creation: when
    POST /posts answers 201 with a post whose generated id is non-empty and
    free of surrounding white space, a DELETE /posts/:id of that id on a
    working storage answers 204 and leaves the storage exactly as it was
    before the POST. *)
Theorem post_then_delete_restores (env : Posts.Env) (c : Sqlite.Database)
  (title body userId : JS.value) (newPost : PostTypes.Post) :
  fst (PostsRouter.post_root env c title body userId)
  = Http.Sent 201 (Http.JsonPost newPost) ->
  PostTypes.id newPost <> [] ->
  JS.trim (PostTypes.id newPost) = PostTypes.id newPost ->
  Sqlite.fault c Sqlite.DeletePost = None ->
  PostsRouter.delete_id (snd (PostsRouter.post_root env c title body userId))
    (JS.VString (PostTypes.id newPost))
  = (Http.Sent 204 Http.NoBody, c).
Proof.
  intros Created Nid Tid Hd.
  destruct (post_root_cases env c title body userId)
    as [[_ Not] | [t [b [u [p [_ [_ [_ [_ [_ [_ [_ [Hp R]]]]]]]]]]]]].
  { exfalso. exact (Not newPost Created). }
  rewrite R in Created |- *; simpl in Created. inversion Created; subst p.
  cbn [snd].
  pose proof (createPost_fresh env c _ _ _ newPost Hp) as Fresh.
  pose proof (createPost_users env c (JS.trim u) (JS.trim t) (JS.trim b)) as U.
  destruct (Posts.createPost env c (JS.trim u) (JS.trim t) (JS.trim b))
    as [created c'] eqn:E.
  destruct (createPost_resolved env c _ _ _ created c' newPost E Hp)
    as [_ [_ [Stored Faults]]].
  cbn [snd] in *.
  assert (Hd' : Sqlite.fault c' Sqlite.DeletePost = None)
    by (rewrite Faults; exact Hd).
  unfold PostsRouter.delete_id; simpl.
  apply is_empty_false in Nid. rewrite Nid; simpl.
  rewrite Tid, Nid.
  rewrite (deletePost_healthy c' (PostTypes.id newPost) Hd').
  rewrite Stored.
  assert (O : Specified.other_posts (PostTypes.id newPost)
                (Sqlite.posts (Sqlite.tables c) ++ [newPost])
              = Sqlite.posts (Sqlite.tables c)).
  { unfold Specified.other_posts. rewrite filter_app.
    fold (Specified.other_posts (PostTypes.id newPost)
            (Sqlite.posts (Sqlite.tables c))).
    rewrite (other_posts_fresh _ _ Fresh). simpl.
    rewrite eqb_refl. simpl. apply app_nil_r. }
  rewrite O, length_app. simpl.
  replace (List.length (Sqlite.posts (Sqlite.tables c)) + 1
           - List.length (Sqlite.posts (Sqlite.tables c)))%nat with 1%nat by lia.
  unfold JS.await; simpl. f_equal.
  destruct c as [[us ps] f], c' as [[us' ps'] f']; simpl in *.
  subst; reflexivity.
Qed.

Lemma post_then_delete_restores_witness :
  PostsRouter.delete_id
    (snd (PostsRouter.post_root Sample.env Sample.db
            (JS.VString (JS.js "Hi")) (JS.VString (JS.js "World"))
            (JS.VString (JS.js "u1"))))
    (JS.VString (JS.js "3b241101-e2bb-4255-8caf-4136c566a962"))
  = (Http.Sent 204 Http.NoBody, Sample.db).
Proof.
  apply (post_then_delete_restores Sample.env Sample.db
           (JS.VString (JS.js "Hi")) (JS.VString (JS.js "World"))
           (JS.VString (JS.js "u1"))
           (PostTypes.mkPost (JS.js "3b241101-e2bb-4255-8caf-4136c566a962")
              (JS.js "u1") (JS.js "Hi") (JS.js "World")
              (JS.js "2025-03-04T05:06:07.000Z")));
    [reflexivity | discriminate | reflexivity | reflexivity].
Defined.

Lemma in_page {A : Type} (a b : nat) (l : list A) x :
  In x (firstn a (skipn b l)) -> In x l.
Proof.
  intros H.
  rewrite <- (firstn_skipn b l). apply in_or_app. right.
  rewrite <- (firstn_skipn a (skipn b l)). apply in_or_app. left. exact H.
Qed.

(** X20. The directory pages and the existence check agree: on a working
    storage and for any page size of at least 1, [userExists(userId)]
    resolves to true exactly when some page of [getUsers] holds a user with
    that id, so every user shown in the directory can own a post and no
    one else can. *)
Theorem listed_users_exist (c : Sqlite.Database) (pageSize : Z)
  (userId : JS.jsstring) :
  1 <= pageSize ->
  Sqlite.fault c Sqlite.SelectUsers = None ->
  Sqlite.fault c Sqlite.SelectUserCountById = None ->
  (JS.state (Users.userExists c userId) = Some (JS.Resolved true) <->
   exists page users u,
     0 <= page /\
     JS.state (Users.getUsers c page pageSize) = Some (JS.Resolved users) /\
     In u users /\ UserTypes.id u = userId).
Proof.
  intros Hs Hu He.
  set (us := Sqlite.users (Sqlite.tables c)).
  split.
  - intros T. apply userExists_true in T. destruct T as [row [Hin Hid]].
    fold us in Hin.
    set (m := Z.to_nat pageSize).
    assert (Whole : List.concat
                      (List.map (fun k => firstn m (skipn (k * m) us))
                         (seq 0 (List.length us)))
                    = us).
    { rewrite chunks_tile. apply firstn_all2. unfold m. nia. }
    rewrite <- Whole in Hin. apply in_concat in Hin.
    destruct Hin as [chunk [Hchunk Hrow]].
    apply in_map_iff in Hchunk. destruct Hchunk as [k [<- _]].
    exists (Z.of_nat k), (List.map Users.formatAddress
                           (firstn m (skipn (k * m) us))),
      (Users.formatAddress row).
    split; [lia|]. split; [|split].
    + rewrite (getUsers_healthy c _ _ Hu); simpl.
      rewrite limit_offset_page by lia.
      rewrite Z2Nat.inj_mul by lia. rewrite Nat2Z.id. reflexivity.
    + apply in_map; assumption.
    + exact Hid.
  - intros [page [users [u [Hp [G [Hin Hid]]]]]].
    rewrite (getUsers_healthy c _ _ Hu) in G; simpl in G.
    inversion G; subst users; clear G.
    apply in_map_iff in Hin. destruct Hin as [row [<- Hrow]].
    rewrite limit_offset_page in Hrow by lia.
    apply in_page in Hrow.
    rewrite (userExists_healthy c userId He); simpl.
    do 2 f_equal. apply Z.ltb_lt.
    assert (0 < List.length
              (filter (fun u => JS.eqb (UserTypes.id u) userId)
                      (Sqlite.users (Sqlite.tables c))))%nat; [|lia].
    apply filter_exists. exists row. split; [assumption|].
    apply eqb_eq. exact Hid.
Qed.

Lemma listed_users_exist_witness :
  JS.state (Users.userExists Sample.db (JS.js "u5")) = Some (JS.Resolved true) <->
  exists page users u,
    0 <= page /\
    JS.state (Users.getUsers Sample.db page 2) = Some (JS.Resolved users) /\
    In u users /\ UserTypes.id u = JS.js "u5".
Proof.
  apply (listed_users_exist Sample.db 2 (JS.js "u5"));
    [lia | reflexivity | reflexivity].
Defined.
